(** * CTSM crop-calendar glue: the RXCROPMATURITY system test and the
    case-colour helper of [cropcal_figs_module]

    A shallow embedding of
    - [cime_config/SystemTests/rxcropmaturity.py] (class [RXCROPMATURITY]) and
    - [python/ctsm/crop_calendars/cropcal_figs_module.py]
      (function [cropcal_colors_cases]),
    followed by the properties of the specification that concern them.

    Python values are modelled as the code has them: integers as [Z],
    binary64 floats as the rationals they denote (every arithmetic result
    rounded to nearest, ties to even), strings as [string], the colour
    dictionary as a [gmap].  Calls that leave the program (the CIME case
    object, the file system, the logger, standard output, subprocesses) are
    events of a small free monad; a run of a method is a trace of such
    events together with the answers of the environment. *)

From Stdlib Require Import ZArith QArith Qround Qabs String Ascii List Bool Lia.
From stdpp Require Import base gmap strings.
Import ListNotations.

Local Open Scope string_scope.
Local Open Scope list_scope.
Local Open Scope Z_scope.

(** ** Python strings *)

Module PyStr.

(** The character with code [n]. *)
Definition chr (n : nat) : ascii := ascii_of_nat n.

Definition newline : ascii := chr 10.
Definition quote : ascii := chr 39.
Definition space : ascii := chr 32.

(** [needle in hay]. *)
Fixpoint contains (needle hay : string) : bool :=
  String.prefix needle hay ||
  match hay with
  | EmptyString => false
  | String _ rest => contains needle rest
  end.

(** [s[1:]]. *)
Definition tail (s : string) : string :=
  match s with
  | EmptyString => EmptyString
  | String _ rest => rest
  end.

(** [s.replace(old, new)] for a non-empty [old]: the occurrences of [old]
    are replaced from left to right, without overlap.  [skip] counts the
    characters of the occurrence just replaced that are still to be
    dropped. *)
Fixpoint replace_from (old new : string) (skip : nat) (s : string) : string :=
  match s with
  | EmptyString => EmptyString
  | String c rest =>
      match skip with
      | S k => replace_from old new k rest
      | O =>
          if String.prefix old s
          then new +:+ replace_from old new (String.length old - 1) rest
          else String c (replace_from old new 0 rest)
      end
  end.

Definition replace (old new s : string) : string := replace_from old new 0 s.

(** [c.lower()] on the code points below 256: the ASCII capitals and the
    Latin-1 capitals (all of U+00C0..U+00DE but the multiplication sign)
    move up by 32, every other character is kept. *)
Definition lower_char (c : ascii) : ascii :=
  let n := nat_of_ascii c in
  if ((65 <=? n)%nat && (n <=? 90)%nat)
     || ((192 <=? n)%nat && (n <=? 222)%nat && negb (n =? 215)%nat)
  then chr (n + 32) else c.

(** [s.lower()]. *)
Fixpoint lower (s : string) : string :=
  match s with
  | EmptyString => EmptyString
  | String c rest => String (lower_char c) (lower rest)
  end.

(** [sep.join(items)]. *)
Fixpoint join (sep : string) (items : list string) : string :=
  match items with
  | [] => EmptyString
  | [x] => x
  | x :: rest => x +:+ sep +:+ join sep rest
  end.

(** The first [n] characters of [s]. *)
Fixpoint truncate (n : nat) (s : string) : string :=
  match n, s with
  | S k, String c rest => String c (truncate k rest)
  | _, _ => EmptyString
  end.

(** [s.split(sep)[0]] for a one-character separator: the text before the
    first [sep], the whole string when there is none. *)
Fixpoint split_head (sep : ascii) (s : string) : string :=
  match s with
  | EmptyString => EmptyString
  | String c rest =>
      if Ascii.eqb c sep then EmptyString else String c (split_head sep rest)
  end.

(** Lines of a text as the iteration over a file yields them: each line
    keeps its terminating newline; a last line without one is yielded as
    it is. *)
Fixpoint lines_from (cur : string -> string) (s : string) : list string :=
  match s with
  | EmptyString =>
      match cur EmptyString with
      | EmptyString => []
      | l => [l]
      end
  | String c rest =>
      if Ascii.eqb c newline
      then cur (String c EmptyString) :: lines_from (fun t => t) rest
      else lines_from (fun t => cur (String c t)) rest
  end.

Definition lines (s : string) : list string := lines_from (fun t => t) s.

(** Decimal digits of a positive number, most significant first. *)
Definition digit (d : Z) : ascii := chr (48 + Z.to_nat d).

Fixpoint digits_fuel (fuel : nat) (n : Z) (acc : string) : string :=
  match fuel with
  | O => acc
  | S k =>
      let acc' := String (digit (n mod 10)) acc in
      if n <? 10 then acc' else digits_fuel k (n / 10) acc'
  end.

(** [str(n)] for an integer. *)
Definition of_Z (n : Z) : string :=
  let m := Z.abs n in
  let ds := digits_fuel (S (Z.to_nat (Z.log2 m))) m EmptyString in
  if n <? 0 then String (chr 45) ds else ds.

Definition is_digit (c : ascii) : bool :=
  let n := nat_of_ascii c in (48 <=? n)%nat && (n <=? 57)%nat.

(** The white space that [int] skips around the number: the ASCII white
    space (tab to carriage return, and the space) and, of the characters
    from 127 on, those that Unicode counts as spaces (NEL and the no-break
    space, in Latin-1).  The separators 28 to 31 are not skipped. *)
Definition is_space (c : ascii) : bool :=
  let n := nat_of_ascii c in
  ((9 <=? n)%nat && (n <=? 13)%nat) || (n =? 32)%nat
  || (n =? 133)%nat || (n =? 160)%nat.

Fixpoint lstrip (s : string) : string :=
  match s with
  | String c rest => if is_space c then lstrip rest else s
  | EmptyString => EmptyString
  end.

(** Digits with single underscores between them, read from the left;
    [seen] says that the previous character was a digit, [acc] is the
    value so far.  Trailing white space is allowed. *)
Fixpoint read_digits (seen : bool) (acc : Z) (s : string) : option Z :=
  match s with
  | EmptyString => if seen then Some acc else None
  | String c rest =>
      if is_digit c
      then read_digits true (10 * acc + Z.of_nat (nat_of_ascii c - 48)) rest
      else if Ascii.eqb c (chr 95)
      then (if seen
            then match rest with
                 | String d _ =>
                     if is_digit d then read_digits false acc rest else None
                 | EmptyString => None
                 end
            else None)
      else if is_space c
      then (if seen
            then match lstrip rest with EmptyString => Some acc | _ => None end
            else None)
      else None
  end.

(** [int(s)] in base ten: optional white space around an optional sign
    and digits; [None] stands for the [ValueError]. *)
Definition to_Z (s : string) : option Z :=
  match lstrip s with
  | String c rest =>
      if Ascii.eqb c (chr 45) then Z.opp <$> read_digits false 0 rest
      else if Ascii.eqb c (chr 43) then read_digits false 0 rest
      else read_digits false 0 (String c rest)
  | EmptyString => None
  end.

End PyStr.

(** ** Exceptions *)

(** The exceptions that the two modules raise or let through.  A bare
    [raise] outside an [except] clause is Python's
    [RuntimeError("No active exception to reraise")].  [EnvError] stands
    for any exception that comes out of a call into CIME or the operating
    system. *)
Inductive exn : Type :=
| RuntimeError (msg : string)
| OverflowError (msg : string)
| ValueError (msg : string)
| CalledProcessError (returncode : Z) (cmd : string) (output : option string)
| EnvError (what : string).

Definition bare_raise : exn := RuntimeError "No active exception to reraise".

(** ** Binary64 arithmetic *)

Module Float64.

Local Open Scope Q_scope.

Definition emin : Z := -1074.

Definition pow2 (e : Z) : Q := 2 ^ e.

(** The integer nearest to [q], the even one of the two on a tie. *)
Definition round_half_even (q : Q) : Z :=
  let f := Qfloor q in
  match Qcompare (q - inject_Z f) (1 # 2) with
  | Lt => f
  | Gt => (f + 1)%Z
  | Eq => if Z.even f then f else (f + 1)%Z
  end.

(** For [q > 0], the exponent [e] of the last place of the format at
    [q]: [2^52 <= q / 2^e < 2^53], and [emin] below the normal range. *)
Definition ulp_exp (q : Q) : Z :=
  let e0 := (Z.log2 (Qnum q) - Z.log2 (Zpos (Qden q)) - 53)%Z in
  let e := if Qle_bool (pow2 53) (q / pow2 e0) then (e0 + 1)%Z else e0 in
  Z.max e emin.

Definition round_pos (q : Q) : Q :=
  let e := ulp_exp q in
  inject_Z (round_half_even (q / pow2 e)) * pow2 e.

(** Rounding to nearest, ties to even (no upper bound on the exponent:
    the callers below test for overflow themselves). *)
Definition round (q : Q) : Q :=
  Qred match Qcompare q 0 with
       | Eq => 0
       | Gt => round_pos q
       | Lt => - round_pos (- q)
       end.

(** The first power of two that is no binary64 number any more. *)
Definition overflow_threshold : Q := pow2 1024.

End Float64.

(** ** Python numbers *)

(** [STOP_N] is an [int]; [/=] turns it into a [float]. *)
Inductive pynum : Type :=
| PyInt (z : Z)
| PyFloat (x : Q).

Module PyNum.

Definition value (v : pynum) : Q :=
  match v with
  | PyInt z => inject_Z z
  | PyFloat x => x
  end.

(** [v / d] for an [int] literal [d > 0].  [int / int] is the exact
    quotient correctly rounded, and an [OverflowError] when that is no
    finite float; [float / int] converts [d] (exactly) and divides, which
    cannot overflow for [d >= 1]. *)
Definition truediv (v : pynum) (d : Z) : exn + pynum :=
  match v with
  | PyInt z =>
      let r := Float64.round (inject_Z z / inject_Z d) in
      if Qle_bool Float64.overflow_threshold (Qabs r)
      then inl (OverflowError "integer division result too large for a float")
      else inr (PyFloat r)
  | PyFloat x => inr (PyFloat (Float64.round (x / inject_Z d)))
  end.

(** [v < k] for an [int] literal [k]; Python compares a float with an
    int exactly. *)
Definition lt (v : pynum) (k : Z) : bool :=
  match v with
  | PyInt z => (z <? k)%Z
  | PyFloat x => negb (Qle_bool (inject_Z k) x)
  end.

(** [int(v)]: a float is truncated towards zero. *)
Definition to_int (v : pynum) : Z :=
  match v with
  | PyInt z => z
  | PyFloat x => Z.quot (Qnum x) (Zpos (Qden x))
  end.

End PyNum.


(** ** The environment *)

(** A CIME case object is known by a handle. *)
Definition case_t : Type := nat.

(** Where a subprocess writes standard output and standard error. *)
Inductive redirect : Type :=
| Inherit
| ToFile (path : string).

(** An argument of a call into CIME: given, or left to the default of the
    method that is called. *)
Inductive arg (A : Type) : Type :=
| Given (a : A)
| Default.

Arguments Given {A} a.
Arguments Default {A}.

(** The calls that leave the program. *)
Inductive event : Type :=
| SuperInit (c : case_t)
| GetInt (c : case_t) (key : string)
| GetStr (c : case_t) (key : string)
| GetCaseroot
| SetActiveCase (c : case_t)
| CreateClone (c : case_t) (newcaseroot : string) (keepexe : bool)
| CreateNamelists (c : case_t) (component : string)
| CheckAllInputData (c : case_t)
| LoadEnv (c : case_t) (reset : bool)
| RunIndv (suffix : arg (option string)) (st_archive : arg bool)
| AppendToUserNlFiles (caseroot component contents : string)
| LoggerInfo (msg : string)
| LoggerError (msg : string)
| Stdout (line : string)
| PathExists (path : string)
| Rmtree (path : string)
| Chdir (path : string)
| Makedirs (path : string)
| Glob (pattern : string)
| ReadText (path : string)
| OpenWrite (path : string)
| CloseFile (path : string)
| Spawn (command : string) (out : redirect).

(** What a call returns when it returns: [get_value] an [int] or a [str]
    according to the variable, [create_clone] the new case, [glob] the
    matching paths, a subprocess its return code and the output that was
    captured (if any). *)
Definition result (ev : event) : Type :=
  match ev with
  | GetInt _ _ => Z
  | GetStr _ _ | GetCaseroot | ReadText _ => string
  | CreateClone _ _ _ => case_t
  | PathExists _ => bool
  | Glob _ => list string
  | Spawn _ _ => Z * option string
  | _ => unit
  end.

(** The calls into CIME that do work, the calls that change the file
    system and the start of a subprocess can raise; reading a variable of
    the case, logging, printing, [os.path.exists], [glob.glob] and closing
    a file do not. *)
Definition can_raise (ev : event) : bool :=
  match ev with
  | GetInt _ _ | GetStr _ _ | GetCaseroot | LoggerInfo _ | LoggerError _
  | Stdout _ | PathExists _ | Glob _ | CloseFile _ => false
  | _ => true
  end.

(** The answer of the environment to a call. *)
Definition answer (ev : event) : Type :=
  if can_raise ev then (exn + result ev)%type else result ev.

(** Programs over these calls: return a value, raise, or make a call and
    go on with its answer. *)
Inductive prog (A : Type) : Type :=
| Ret (a : A)
| Raise (e : exn)
| Vis (ev : event) (k : answer ev -> prog A).

Arguments Ret {A} a.
Arguments Raise {A} e.
Arguments Vis {A} ev k.

Fixpoint bind {A B : Type} (p : prog A) (f : A -> prog B) : prog B :=
  match p with
  | Ret a => f a
  | Raise e => Raise e
  | Vis ev k => Vis ev (fun x => bind (k x) f)
  end.

(** [try: p  except: h]. *)
Fixpoint catch {A : Type} (p : prog A) (h : exn -> prog A) : prog A :=
  match p with
  | Ret a => Ret a
  | Raise e => h e
  | Vis ev k => Vis ev (fun x => catch (k x) h)
  end.

#[export] Instance prog_ret : MRet prog := @Ret.
#[export] Instance prog_bind : MBind prog := fun A B f p => bind p f.

(** Making a call: an exception of the environment propagates. *)
Definition call (ev : event) : prog (result ev) :=
  Vis ev
    (match can_raise ev as b
           return (if b then (exn + result ev)%type else result ev) -> prog (result ev)
     with
     | true => fun r => match r with inl e => Raise e | inr x => Ret x end
     | false => fun x => Ret x
     end).

(** A pure computation that can raise. *)
Definition lift {A : Type} (r : exn + A) : prog A :=
  match r with inl e => Raise e | inr a => Ret a end.

(** Sequencing of pure computations that can raise. *)
#[export] Instance exn_ret : MRet (sum exn) := fun A a => inr a.
#[export] Instance exn_bind : MBind (sum exn) :=
  fun A B f r => match r with inl e => inl e | inr a => f a end.

(** One observed call with the answer it got. *)
Inductive obs : Type :=
| Obs (ev : event) (r : answer ev).

Definition obs_event (o : obs) : event :=
  match o with Obs ev _ => ev end.

Definition outcome (A : Type) : Type := (exn + A)%type.

(** [exec p tr o]: the program [p] can make the calls of [tr], with the
    answers recorded there, and then ends with [o]. *)
Fixpoint exec {A : Type} (p : prog A) (tr : list obs) (o : outcome A) : Prop :=
  match p with
  | Ret a => tr = [] /\ o = inr a
  | Raise e => tr = [] /\ o = inl e
  | Vis ev k => exists r tr', tr = Obs ev r :: tr' /\ exec (k r) tr' o
  end.

(** An environment with state [W] answers every call. *)
Definition handler (W : Type) : Type := forall ev, W -> answer ev * W.

Fixpoint run {W A : Type} (h : handler W) (p : prog A) (w : W)
  : list obs * outcome A * W :=
  match p with
  | Ret a => ([], inr a, w)
  | Raise e => ([], inl e, w)
  | Vis ev k =>
      let '(r, w1) := h ev w in
      let '(tr, o, w2) := run h (k r) w1 in
      (Obs ev r :: tr, o, w2)
  end.

(** ** [os.path] on POSIX *)

Module OsPath.

Fixpoint ends_with_sep (s : string) : bool :=
  match s with
  | EmptyString => false
  | String c EmptyString => Ascii.eqb c "/"
  | String _ rest => ends_with_sep rest
  end.

(** One step of [os.path.join]: an absolute component restarts the
    path, any other is appended after a separator. *)
Definition join2 (path b : string) : string :=
  if String.prefix "/" b then b
  else if (String.eqb path "" || ends_with_sep path)%bool then path +:+ b
  else path +:+ "/" +:+ b.

(** [os.path.join(a, *p)]. *)
Definition join (a : string) (p : list string) : string :=
  fold_left join2 p a.

(** [os.path.split(p)[-1]]: what follows the last separator. *)
Fixpoint basename (p : string) : string :=
  match p with
  | EmptyString => EmptyString
  | String c rest =>
      if PyStr.contains "/" p
      then basename rest
      else p
  end.

End OsPath.

(** ** Regular expressions *)

(** The fragment of [re] that the namelist scanner uses: literal
    characters, a starred character, and one group around a starred dot.
    Stars are
    greedy and backtrack; [.] matches everything but a newline. *)
Module Re.

Inductive atom : Type :=
| Lit (c : ascii)
| Star (c : ascii)
| GroupAnyStar.

Fixpoint compile (pattern : string) : list atom :=
  match pattern with
  | EmptyString => []
  | String "(" (String "." (String "*" (String ")" rest))) =>
      GroupAnyStar :: compile rest
  | String c (String "*" rest) => Star c :: compile rest
  | String c rest => Lit c :: compile rest
  end.

(** A greedy star on the character [c], followed by the rest of the
    pattern [k]: the longest run of [c] is tried first, then shorter
    ones. *)
Fixpoint star_loop (c : ascii) (k : string -> option string) (s : string)
  : option string :=
  let longer :=
    match s with
    | String d s' => if Ascii.eqb c d then star_loop c k s' else None
    | EmptyString => None
    end in
  match longer with
  | Some g => Some g
  | None => k s
  end.

(** The group around a greedy starred dot, followed by the rest of the
    pattern [k]: the answer is the text that the group has taken. *)
Fixpoint group_loop (k : string -> option string) (s : string) : option string :=
  let longer :=
    match s with
    | String d s' =>
        if Ascii.eqb d PyStr.newline then None
        else String d <$> group_loop k s'
    | EmptyString => None
    end in
  match longer with
  | Some g => Some g
  | None => (fun _ => EmptyString) <$> k s
  end.

(** [match_here p s]: does [p] match a prefix of [s]?  The answer is
    the text of the group (empty when [p] has none). *)
Fixpoint match_here (p : list atom) (s : string) : option string :=
  match p with
  | [] => Some EmptyString
  | Lit c :: p' =>
      match s with
      | String d s' => if Ascii.eqb c d then match_here p' s' else None
      | EmptyString => None
      end
  | Star c :: p' => star_loop c (match_here p') s
  | GroupAnyStar :: p' => group_loop (match_here p') s
  end.

(** [m = re.match(pattern, s)] followed by [m.group(1)]; [None] when
    there is no match. *)
Definition match_group1 (pattern s : string) : option string :=
  match_here (compile pattern) s.

End Re.

(** ** [repr] and [str] of the values that are printed *)

Module PyRepr.

Definition hex_digit (n : nat) : ascii :=
  if (n <? 10)%nat then PyStr.chr (48 + n) else PyStr.chr (87 + n).

Definition printable (n : nat) : bool :=
  ((32 <=? n)%nat && (n <? 127)%nat) || ((161 <=? n)%nat && negb (n =? 173)%nat).

Fixpoint escape (q : ascii) (s : string) : string :=
  match s with
  | EmptyString => EmptyString
  | String c rest =>
      let n := nat_of_ascii c in
      let e :=
        if (Ascii.eqb c q || Ascii.eqb c "\")%bool
        then String "\" (String c EmptyString)
        else if (n =? 9)%nat then "\t"
        else if (n =? 10)%nat then "\n"
        else if (n =? 13)%nat then "\r"
        else if printable n then String c EmptyString
        else String "\" (String "x" (String (hex_digit (n / 16))
               (String (hex_digit (n mod 16)) EmptyString))) in
      e +:+ escape q rest
  end.

(** [repr(s)]: single quotes, unless [s] has a single quote and no
    double quote. *)
Definition of_str (s : string) : string :=
  let dq := String (PyStr.chr 34) EmptyString in
  if (PyStr.contains "'" s && negb (PyStr.contains dq s))%bool
  then dq +:+ escape (PyStr.chr 34) s +:+ dq
  else "'" +:+ escape "'" s +:+ "'".

(** [repr(l)] for a list of strings. *)
Definition of_list (l : list string) : string :=
  "[" +:+ PyStr.join ", " (map of_str l) +:+ "]".

(** [str(x)] for [x] a string or [None]. *)
Definition of_option (x : option string) : string :=
  match x with
  | Some s => s
  | None => "None"
  end.

End PyRepr.

(** ** [cime_config/SystemTests/rxcropmaturity.py] *)

Definition this_conda_env : string := "ctsm_pylib".

(** The attributes of a [RXCROPMATURITY] object.  [_case] is the
    attribute that [SystemTestsCommon] keeps; the others are assigned by
    the methods below, and hold a placeholder until then. *)
Record RXCROPMATURITY : Type := mkRXCROPMATURITY {
  _case : case_t;
  _run_Nyears : Z;
  _path_gddgen : string;
  _ctsm_root : string;
  _run_startyear : Z;
  _sdatefile : string;
  _hdatefile : string;
  _lnd_in_path : string;
  _flanduse_timeseries_in : option string;
  _flanduse_timeseries_out : string;
  _generate_gdds_dir : string;
  _gdds_file : string;
  _skip_pnl : bool
}.

Section Setters.

Variable self : RXCROPMATURITY.

Definition set_case (v : case_t) : RXCROPMATURITY :=
  mkRXCROPMATURITY v (_run_Nyears self) (_path_gddgen self) (_ctsm_root self)
    (_run_startyear self) (_sdatefile self) (_hdatefile self)
    (_lnd_in_path self) (_flanduse_timeseries_in self)
    (_flanduse_timeseries_out self) (_generate_gdds_dir self)
    (_gdds_file self) (_skip_pnl self).

Definition set_path_gddgen (v : string) : RXCROPMATURITY :=
  mkRXCROPMATURITY (_case self) (_run_Nyears self) v (_ctsm_root self)
    (_run_startyear self) (_sdatefile self) (_hdatefile self)
    (_lnd_in_path self) (_flanduse_timeseries_in self)
    (_flanduse_timeseries_out self) (_generate_gdds_dir self)
    (_gdds_file self) (_skip_pnl self).

Definition set_ctsm_root (v : string) : RXCROPMATURITY :=
  mkRXCROPMATURITY (_case self) (_run_Nyears self) (_path_gddgen self) v
    (_run_startyear self) (_sdatefile self) (_hdatefile self)
    (_lnd_in_path self) (_flanduse_timeseries_in self)
    (_flanduse_timeseries_out self) (_generate_gdds_dir self)
    (_gdds_file self) (_skip_pnl self).

Definition set_run_startyear (v : Z) : RXCROPMATURITY :=
  mkRXCROPMATURITY (_case self) (_run_Nyears self) (_path_gddgen self)
    (_ctsm_root self) v (_sdatefile self) (_hdatefile self)
    (_lnd_in_path self) (_flanduse_timeseries_in self)
    (_flanduse_timeseries_out self) (_generate_gdds_dir self)
    (_gdds_file self) (_skip_pnl self).

Definition set_sdatefile (v : string) : RXCROPMATURITY :=
  mkRXCROPMATURITY (_case self) (_run_Nyears self) (_path_gddgen self)
    (_ctsm_root self) (_run_startyear self) v (_hdatefile self)
    (_lnd_in_path self) (_flanduse_timeseries_in self)
    (_flanduse_timeseries_out self) (_generate_gdds_dir self)
    (_gdds_file self) (_skip_pnl self).

Definition set_hdatefile (v : string) : RXCROPMATURITY :=
  mkRXCROPMATURITY (_case self) (_run_Nyears self) (_path_gddgen self)
    (_ctsm_root self) (_run_startyear self) (_sdatefile self) v
    (_lnd_in_path self) (_flanduse_timeseries_in self)
    (_flanduse_timeseries_out self) (_generate_gdds_dir self)
    (_gdds_file self) (_skip_pnl self).

Definition set_lnd_in_path (v : string) : RXCROPMATURITY :=
  mkRXCROPMATURITY (_case self) (_run_Nyears self) (_path_gddgen self)
    (_ctsm_root self) (_run_startyear self) (_sdatefile self)
    (_hdatefile self) v (_flanduse_timeseries_in self)
    (_flanduse_timeseries_out self) (_generate_gdds_dir self)
    (_gdds_file self) (_skip_pnl self).

Definition set_flanduse_timeseries_in (v : option string) : RXCROPMATURITY :=
  mkRXCROPMATURITY (_case self) (_run_Nyears self) (_path_gddgen self)
    (_ctsm_root self) (_run_startyear self) (_sdatefile self)
    (_hdatefile self) (_lnd_in_path self) v
    (_flanduse_timeseries_out self) (_generate_gdds_dir self)
    (_gdds_file self) (_skip_pnl self).

Definition set_flanduse_timeseries_out (v : string) : RXCROPMATURITY :=
  mkRXCROPMATURITY (_case self) (_run_Nyears self) (_path_gddgen self)
    (_ctsm_root self) (_run_startyear self) (_sdatefile self)
    (_hdatefile self) (_lnd_in_path self) (_flanduse_timeseries_in self)
    v (_generate_gdds_dir self) (_gdds_file self) (_skip_pnl self).

Definition set_generate_gdds_dir (v : string) : RXCROPMATURITY :=
  mkRXCROPMATURITY (_case self) (_run_Nyears self) (_path_gddgen self)
    (_ctsm_root self) (_run_startyear self) (_sdatefile self)
    (_hdatefile self) (_lnd_in_path self) (_flanduse_timeseries_in self)
    (_flanduse_timeseries_out self) v (_gdds_file self) (_skip_pnl self).

Definition set_gdds_file (v : string) : RXCROPMATURITY :=
  mkRXCROPMATURITY (_case self) (_run_Nyears self) (_path_gddgen self)
    (_ctsm_root self) (_run_startyear self) (_sdatefile self)
    (_hdatefile self) (_lnd_in_path self) (_flanduse_timeseries_in self)
    (_flanduse_timeseries_out self) (_generate_gdds_dir self) v
    (_skip_pnl self).

Definition set_skip_pnl (v : bool) : RXCROPMATURITY :=
  mkRXCROPMATURITY (_case self) (_run_Nyears self) (_path_gddgen self)
    (_ctsm_root self) (_run_startyear self) (_sdatefile self)
    (_hdatefile self) (_lnd_in_path self) (_flanduse_timeseries_in self)
    (_flanduse_timeseries_out self) (_generate_gdds_dir self)
    (_gdds_file self) v.

End Setters.

Section Methods.

Import PyStr.

(** [for a in l: body(a)]. *)
Fixpoint for_each {A : Type} (l : list A) (body : A -> prog unit) : prog unit :=
  match l with
  | [] => mret tt
  | a :: rest => body a;; for_each rest body
  end.

(** [print(line)]. *)
Definition print (line : string) : prog unit := call (Stdout line).

(** [subprocess.run(command, shell=True, check=True, ...)]: with
    [check], a non-zero return code is a [CalledProcessError] that carries
    the code, the command and the output that [run] captured. *)
Definition subprocess_run (command : string) (out : redirect) : prog unit :=
  '(returncode, output) ← call (Spawn command out);
  if returncode =? 0 then mret tt
  else Raise (CalledProcessError returncode command output).

(** [with open(path, "w") as f: body]: the file is closed on the way
    out, also when [body] raises. *)
Definition with_open_w {A : Type} (path : string) (body : prog A) : prog A :=
  call (OpenWrite path);;
  r ← catch body (fun e => call (CloseFile path);; Raise e);
  call (CloseFile path);;
  mret r.

(** One step of lines 41-55 of [__init__]:
    [if needle in stop_option: stop_n /= d; stop_option = renamed]. *)
Definition divide_if (needle : string) (d : Z) (renamed : string)
    (st : pynum * string) : exn + pynum * string :=
  let '(stop_n, stop_option) := st in
  if contains needle stop_option
  then match PyNum.truediv stop_n d with
       | inl e => inl e
       | inr quotient => inr (quotient, renamed)
       end
  else inr (stop_n, stop_option).

(** Lines 41-55: the conversions are tried one after the other, each on
    the unit that the one before left. *)
Definition normalize_run_length (stop_n : Z) (stop_option : string)
  : exn + pynum * string :=
  st ← divide_if "nsecond" 60 "nminutes" (PyInt stop_n, stop_option);
  st ← divide_if "nminute" 60 "nhours" st;
  st ← divide_if "nhour" 24 "ndays" st;
  st ← divide_if "nday" 365 "nyears" st;
  divide_if "nmonth" 12 "nyears" st.

Definition unit_error_message (stop_option_orig : string) : string :=
  "STOP_OPTION (" +:+ stop_option_orig
  +:+ ") must be nsecond(s), nminute(s), "
  +:+ "nhour(s), nday(s), nmonth(s), or nyear(s)".

Definition length_error_message (stop_n_orig : Z) (stop_option_orig : string)
  : string :=
  "RXCROPMATURITY must be run for at least 5 years; you requested "
  +:+ of_Z stop_n_orig +:+ " " +:+ tail stop_option_orig.

(** Lines 37-72 of [__init__] after the two reads: the run length in
    whole years, from [STOP_N] and [STOP_OPTION]. *)
Definition check_run_length (stop_n : Z) (stop_option : string) : prog Z :=
  let stop_n_orig := stop_n in
  let stop_option_orig := stop_option in
  '(stop_n, stop_option) ← lift (normalize_run_length stop_n stop_option);
  let error_message : option string := None in
  let error_message :=
    if negb (contains "nyear" stop_option)
    then Some (unit_error_message stop_option_orig)
    else error_message in
  let error_message :=
    if PyNum.lt stop_n 5
    then Some (length_error_message stop_n_orig stop_option_orig)
    else error_message in
  match error_message with
  | Some msg => call (LoggerError msg);; Raise (RuntimeError msg)
  | None => mret tt
  end;;
  mret (PyNum.to_int stop_n).

(** The object as [SystemTestsCommon.__init__] leaves it, with the
    number of complete years filled in. *)
Definition new_object (case : case_t) (run_Nyears : Z) : RXCROPMATURITY :=
  mkRXCROPMATURITY case run_Nyears "" "" 0 "" "" "" None "" "" "" false.

Definition __init__ (case : case_t) : prog RXCROPMATURITY :=
  call (SuperInit case);;
  stop_n ← call (GetInt case "STOP_N");
  stop_option ← call (GetStr case "STOP_OPTION");
  run_Nyears ← check_run_length stop_n stop_option;
  mret (new_object case run_Nyears).

(** Modelled from the spec: [SystemTestsCommon._set_active_case], a CIME
    method that is not in the repository; it switches the case that the
    object operates on. *)
Definition _set_active_case (self : RXCROPMATURITY) (case : case_t)
  : prog RXCROPMATURITY :=
  call (SetActiveCase case);;
  mret (set_case self case).

Definition _get_caseroot : prog string := call GetCaseroot.

Definition _append_to_user_nl_clm (additions : list string) : prog unit :=
  caseroot ← _get_caseroot;
  for_each additions (fun a => call (AppendToUserNlFiles caseroot "clm" a)).

Definition _modify_user_nl_allruns (self : RXCROPMATURITY) : prog unit :=
  lnd_domain_mesh ← call (GetStr (_case self) "LND_DOMAIN_MESH");
  let nl_additions := [
    "stream_meshfile_cropcal = '" +:+ lnd_domain_mesh +:+ "'";
    "stream_fldFileName_sdate = '" +:+ _sdatefile self +:+ "'";
    "stream_year_first_cropcal = 2000";
    "stream_year_last_cropcal = 2000";
    "model_year_align_cropcal = 2000";
    " ";
    "! (h1) Daily outputs for GDD generation and figure-making";
    "hist_fincl2 = 'HUI', 'GDDACCUM', 'GDDHARV'";
    "hist_nhtfrq(2) = -24";
    "hist_mfilt(2) = 365";
    "hist_type1d_pertape(2) = 'PFTS'";
    "hist_dov2xy(2) = .false.";
    " ";
    "! (h2) Annual outputs for GDD generation (checks)";
    "hist_fincl3 = 'GRAINC_TO_FOOD_PERHARV', 'GRAINC_TO_FOOD_ANN', 'SDATES', 'SDATES_PERHARV', 'SYEARS_PERHARV', 'HDATES', 'GDDHARV_PERHARV', 'GDDACCUM_PERHARV', 'HUI_PERHARV', 'SOWING_REASON_PERHARV', 'HARVEST_REASON_PERHARV'";
    "hist_nhtfrq(3) = 17520";
    "hist_mfilt(3) = 999";
    "hist_type1d_pertape(3) = 'PFTS'";
    "hist_dov2xy(3) = .false."
  ] in
  _append_to_user_nl_clm nl_additions.

Definition blessed_crop_dates_dir : string :=
  "/glade/work/samrabin/crop_dates_blessed".

(** Lines 187-211 of [_setup_all]: the sowing and harvest date files
    of the grid. *)
Definition get_crop_date_files (self : RXCROPMATURITY) : prog RXCROPMATURITY :=
  lnd_grid ← call (GetStr (_case self) "LND_GRID");
  self ←
    (if String.eqb lnd_grid "10x15" then
       let self := set_sdatefile self (OsPath.join blessed_crop_dates_dir
         ["sdates_ggcmi_crop_calendar_phase3_v1.01_nninterp-f10_f10_mg37.2000-2000.20230330_165301.fill1.nc"]) in
       let self := set_hdatefile self (OsPath.join blessed_crop_dates_dir
         ["hdates_ggcmi_crop_calendar_phase3_v1.01_nninterp-f10_f10_mg37.2000-2000.20230330_165301.fill1.nc"]) in
       mret self
     else if String.eqb lnd_grid "1.9x2.5" then
       let self := set_sdatefile self (OsPath.join blessed_crop_dates_dir
         ["sdates_ggcmi_crop_calendar_phase3_v1.01_nninterp-f19_g17.2000-2000.20230102_175625.fill1.nc"]) in
       let self := set_hdatefile self (OsPath.join blessed_crop_dates_dir
         ["hdates_ggcmi_crop_calendar_phase3_v1.01_nninterp-f19_g17.2000-2000.20230102_175625.fill1.nc"]) in
       mret self
     else
       print "ERROR: RXCROPMATURITY currently only supports 10x15 and 1.9x2.5 resolutions";;
       Raise bare_raise);
  sdate_found ← call (PathExists (_sdatefile self));
  (if negb sdate_found then
     print ("ERROR: Sowing date file not found: " +:+ _sdatefile self);;
     Raise bare_raise
   else mret tt);;
  hdate_found ← call (PathExists (_hdatefile self));
  (if negb hdate_found then
     print ("ERROR: Harvest date file not found: " +:+ _sdatefile self);;
     Raise bare_raise
   else mret tt);;
  mret self.

Definition _setup_all (self : RXCROPMATURITY) : prog RXCROPMATURITY :=
  call (LoggerInfo "SSRLOG  _setup_all start");;
  ctsm_root ← call (GetStr (_case self) "COMP_ROOT_DIR_LND");
  let self := set_ctsm_root self ctsm_root in
  run_startdate ← call (GetStr (_case self) "RUN_STARTDATE");
  run_startyear ←
    match to_Z (split_head "-" run_startdate) with
    | Some y => mret y
    | None => Raise (ValueError ("invalid literal for int() with base 10: "
                                 +:+ truncate 200 (PyRepr.of_str (split_head "-" run_startdate))))
    end;
  let self := set_run_startyear self run_startyear in
  self ← get_crop_date_files self;
  call (LoggerInfo "SSRLOG  modify user_nl files: all tests");;
  _modify_user_nl_allruns self;;
  call (LoggerInfo "SSRLOG  _setup_all done");;
  mret self.

Definition _get_conda_env : prog string :=
  conda_env ←
    catch (subprocess_run "which conda" Inherit;; mret " ")
          (fun e => match e with
                    | CalledProcessError _ _ _ =>
                        mret "module unload python; module load conda;"
                    | _ => Raise e
                    end);
  mret (conda_env +:+ " conda run -n " +:+ this_conda_env +:+ " ").

(** What [_run_python_script] prints when the command exits with a
    non-zero code, before the output carried by the exception. *)
Definition diagnostic_guidance (tool_name : string) : list string := [
  "ERROR while getting the conda environment and/or ";
  "running the " +:+ tool_name +:+ " tool: ";
  "(1) If your " +:+ this_conda_env +:+ " environment is out of date or you ";
  "have not created the " +:+ this_conda_env +:+ " environment, yet, you may ";
  "get past this error by running ./py_env_create ";
  "in your ctsm directory and trying this test again. ";
  "(2) If conda is not available, install and load conda, ";
  "run ./py_env_create, and then try this test again. ";
  "(3) If (1) and (2) are not the issue, then you may be ";
  "getting an error within " +:+ tool_name +:+ " itself. ";
  "Default error message: "
].

Definition _run_python_script (case : case_t) (command tool_path : string)
  : prog unit :=
  let tool_name := OsPath.basename tool_path in
  call (LoadEnv case true);;
  caseroot ← _get_caseroot;
  let conda_env := ". " +:+ caseroot +:+ "/.env_mach_specific.sh; " in
  more ← _get_conda_env;
  let conda_env := conda_env +:+ more in
  let command := conda_env +:+ command in
  print ("command: " +:+ command);;
  catch
    (with_open_w (tool_name +:+ ".log")
       (subprocess_run command (ToFile (tool_name +:+ ".log"))))
    (fun error =>
       match error with
       | CalledProcessError _ _ output =>
           for_each (diagnostic_guidance tool_name) print;;
           print (PyRepr.of_option output);;
           Raise error
       | _ =>
           print ("ERROR trying to run " +:+ tool_name +:+ ".");;
           Raise error
       end).

Definition crop_calendars_tool (self : RXCROPMATURITY) (script : string) : string :=
  OsPath.join (_ctsm_root self) ["python"; "ctsm"; "crop_calendars"; script].

Definition _run_make_lu_for_gddgen (self : RXCROPMATURITY) (case_gddgen : case_t)
  : prog RXCROPMATURITY :=
  let self := set_flanduse_timeseries_out self
                (OsPath.join (_path_gddgen self) ["flanduse_timeseries.nc"]) in
  already_done ← call (PathExists (_flanduse_timeseries_out self));
  (if negb already_done then
     let first_fake_year := _run_startyear self in
     let last_fake_year := first_fake_year + _run_Nyears self in
     let tool_path := crop_calendars_tool self "make_lu_for_gddgen.py" in
     let command := join " " [
       "python3 " +:+ tool_path;
       "--flanduse-timeseries " +:+ PyRepr.of_option (_flanduse_timeseries_in self);
       "-y1 " +:+ of_Z first_fake_year;
       "-yN " +:+ of_Z last_fake_year;
       "--outfile " +:+ _flanduse_timeseries_out self
     ] in
     _run_python_script case_gddgen command tool_path
   else mret tt);;
  call (LoggerInfo "SSRLOG  modify user_nl files: new flanduse_timeseries");;
  _append_to_user_nl_clm
    ["flanduse_timeseries = '" +:+ _flanduse_timeseries_out self +:+ "'"];;
  mret self.

Definition _run_check_rxboth_run (self : RXCROPMATURITY) : prog unit :=
  caseroot ← _get_caseroot;
  let output_dir := OsPath.join caseroot ["run"] in
  let first_usable_year := _run_startyear self + 2 in
  let last_usable_year := _run_startyear self + _run_Nyears self - 2 in
  let tool_path := crop_calendars_tool self "check_rxboth_run.py" in
  let command :=
    "python3 " +:+ tool_path +:+ " "
    +:+ "--directory " +:+ output_dir +:+ " "
    +:+ "-y1 " +:+ of_Z first_usable_year +:+ " "
    +:+ "-yN " +:+ of_Z last_usable_year +:+ " "
    +:+ "--rx-sdates-file " +:+ _sdatefile self +:+ " "
    +:+ "--rx-gdds-file " +:+ _gdds_file self +:+ " " in
  _run_python_script (_case self) command tool_path.

Definition _run_generate_gdds (self : RXCROPMATURITY) (case_gddgen : case_t)
  : prog RXCROPMATURITY :=
  let self := set_generate_gdds_dir self
                (OsPath.join (_path_gddgen self) ["generate_gdds_out"]) in
  call (Makedirs (_generate_gdds_dir self));;
  dout_sr ← call (GetStr case_gddgen "DOUT_S_ROOT");
  let input_dir := OsPath.join dout_sr ["lnd"; "hist"] in
  let first_season := _run_startyear self + 2 in
  let last_season := _run_startyear self + _run_Nyears self - 2 in
  let sdates_file := _sdatefile self in
  let hdates_file := _hdatefile self in
  let tool_path := crop_calendars_tool self "generate_gdds.py" in
  let command := join " " [
    "python3 " +:+ tool_path;
    "--input-dir " +:+ input_dir;
    "--first-season " +:+ of_Z first_season;
    "--last-season " +:+ of_Z last_season;
    "--sdates-file " +:+ sdates_file;
    "--hdates-file " +:+ hdates_file;
    "--output-dir generate_gdds_out"
  ] in
  _run_python_script case_gddgen command tool_path;;
  generated_gdd_files ←
    call (Glob (OsPath.join (_generate_gdds_dir self) ["gdds_*.nc"]));
  let generated_gdd_files :=
    filter (fun x => negb (contains "fill0" x)) generated_gdd_files in
  match generated_gdd_files with
  | [only] => mret (set_gdds_file self only)
  | _ =>
      print ("ERROR: Expected one matching prescribed maturity requirements file; found "
             +:+ of_Z (Z.of_nat (length generated_gdd_files)) +:+ ": "
             +:+ PyRepr.of_list generated_gdd_files);;
      Raise bare_raise
  end.

(** The pattern of line 116 and the loop of lines 115-119 over the
    lines of [lnd_in]: the value of the first line that matches. *)
Definition flanduse_timeseries_re : string :=
  " *flanduse_timeseries *= *'(.*)'".

Fixpoint scan_namelist (pattern : string) (lnd_in : list string) : option string :=
  match lnd_in with
  | [] => None
  | line :: rest =>
      match Re.match_group1 pattern line with
      | Some value => Some value
      | None => scan_namelist pattern rest
      end
  end.

Definition run_phase (self : RXCROPMATURITY) : prog RXCROPMATURITY :=
  (* (1) Set up GDD-generating run *)
  call (LoggerInfo "SSRLOG  cloning setup");;
  let case_rxboth := _case self in
  caseroot ← call (GetStr (_case self) "CASEROOT");
  let clone_path := caseroot +:+ ".gddgen" in
  let self := set_path_gddgen self clone_path in
  stale ← call (PathExists (_path_gddgen self));
  (if stale : bool then call (Rmtree (_path_gddgen self)) else mret tt);;
  call (LoggerInfo "SSRLOG  cloning");;
  case_gddgen ← call (CreateClone (_case self) clone_path true);
  call (LoggerInfo "SSRLOG  done cloning");;
  call (Chdir (_path_gddgen self));;
  self ← _set_active_case self case_gddgen;
  self ← _setup_all self;
  call (LoggerInfo "SSRLOG  modify user_nl files: generate GDDs");;
  _append_to_user_nl_clm ["generate_crop_gdds = .true."; "use_mxmat = .false."];;
  call (CreateNamelists case_gddgen "lnd");;
  let self := set_lnd_in_path self
                (OsPath.join (_path_gddgen self) ["CaseDocs"; "lnd_in"]) in
  let self := set_flanduse_timeseries_in self None in
  lnd_in ← call (ReadText (_lnd_in_path self));
  let self := set_flanduse_timeseries_in self
                (scan_namelist flanduse_timeseries_re (lines lnd_in)) in
  self ←
    match _flanduse_timeseries_in self with
    | Some _ =>
        call (CheckAllInputData case_gddgen);;
        call (LoggerInfo "SSRLOG  run make_lu_for_gddgen");;
        _run_make_lu_for_gddgen self case_gddgen
    | None => mret self
    end;
  (* (2) Perform GDD-generating run and generate prescribed GDDs file *)
  call (LoggerInfo "SSRLOG  Start GDD-Generating run");;
  let self := set_skip_pnl self false in
  call (RunIndv (Given None) (Given true));;
  self ← _run_generate_gdds self case_gddgen;
  (* (3) Set up and perform Prescribed Calendars run *)
  call (Chdir caseroot);;
  self ← _set_active_case self case_rxboth;
  self ← _setup_all self;
  call (LoggerInfo "SSRLOG  modify user_nl files: Prescribed Calendars");;
  _append_to_user_nl_clm [
    "generate_crop_gdds = .false.";
    "stream_fldFileName_cultivar_gdds = '" +:+ _gdds_file self +:+ "'"
  ];;
  call (RunIndv Default Default);;
  (* (4) Check Prescribed Calendars run *)
  call (LoggerInfo "SSRLOG  output check: Prescribed Calendars");;
  _run_check_rxboth_run self;;
  mret self.

End Methods.

(** ** [python/ctsm/crop_calendars/cropcal_figs_module.py] *)

(** [[x / 255 for x in c]]: each quotient is a float. *)
Definition rgb (c : list Z) : list Q :=
  map (fun x => Float64.round (inject_Z x / 255)) c.

Definition case_color_dict : gmap string (list Q) :=
  let case_color_dict : gmap string (list Q) :=
    <["prescribed sowing" := rgb [133; 92; 255]]>
      (<["prescribed maturity" := rgb [128; 0; 0]]>
         (<["prescribed calendars" := rgb [250; 102; 240]]>
            (<["clm default" := rgb [92; 219; 219]]> ∅))) in
  let case_color_dict :=
    <["5.0 lu" := case_color_dict !!! "clm default"]> case_color_dict in
  let case_color_dict :=
    <["5.2 lu" := case_color_dict !!! "prescribed calendars"]> case_color_dict in
  case_color_dict.

Definition cropcal_colors_cases (casename : string) : option (list Q) :=
  let case_color : option (list Q) := None in
  let casename_for_colors :=
    PyStr.replace " (1)" "" (PyStr.replace " (0)" "" (PyStr.lower casename)) in
  match case_color_dict !! casename_for_colors with
  | Some color => Some color
  | None => case_color
  end.

(** ** Definitions used to state the properties *)

(** The projection of the first element of a trace, and equality of
    calls: both are needed to compare observations. *)
#[local] Instance exn_eq_dec : EqDecision exn.
Proof. solve_decision. Defined.

#[local] Instance redirect_eq_dec : EqDecision redirect.
Proof. solve_decision. Defined.

#[local] Instance arg_eq_dec {A : Type} `{EqDecision A} : EqDecision (arg A).
Proof. solve_decision. Defined.

#[local] Instance event_eq_dec : EqDecision event.
Proof. solve_decision. Defined.

(** The units of [STOP_OPTION] that the validator converts, with the
    names CIME gives them and the divisors that lead from each to years. *)
Inductive time_unit : Type := Seconds | Minutes | Hours | Days | Months.

Definition unit_names (t : time_unit) : list string :=
  match t with
  | Seconds => ["nseconds"; "nsecond"]
  | Minutes => ["nminutes"; "nminute"]
  | Hours => ["nhours"; "nhour"]
  | Days => ["ndays"; "nday"]
  | Months => ["nmonths"; "nmonth"]
  end.

Definition factor_chain (t : time_unit) : list Z :=
  match t with
  | Seconds => [60; 60; 24; 365]
  | Minutes => [60; 24; 365]
  | Hours => [24; 365]
  | Days => [365]
  | Months => [12]
  end.

(** The specification's conversion: [stop_n] divided by the factors of the
    chain, one after the other. *)
Definition spec_converted (t : time_unit) (n : Z) : exn + pynum :=
  fold_left (fun acc d => v ← acc; PyNum.truediv v d)
            (factor_chain t) (inr (PyInt n)).

(** The calls with which [__init__] starts, answered with [STOP_N = n] and
    [STOP_OPTION = u]. *)
Definition init_prefix (case : case_t) (n : Z) (u : string) : list obs :=
  [Obs (SuperInit case) (inr ()); Obs (GetInt case "STOP_N") n;
   Obs (GetStr case "STOP_OPTION") u].

(** A stop unit reduces to years when one of the six names occurs in
    it. *)
Definition reduces_to_years (u : string) : bool :=
  PyStr.contains "nsecond" u || PyStr.contains "nminute" u
  || PyStr.contains "nhour" u || PyStr.contains "nday" u
  || PyStr.contains "nmonth" u || PyStr.contains "nyear" u.

(** The calls that create a clone of the case or start a subprocess. *)
Definition clones_or_spawns (ev : event) : bool :=
  match ev with
  | CreateClone _ _ _ | Spawn _ _ => true
  | _ => false
  end.

(** The answers to [os.path.exists] in a trace, in order. *)
Definition probe (ob : obs) : option (string * bool) :=
  match ob with
  | Obs ev r =>
      match ev return answer ev -> option (string * bool) with
      | PathExists path => fun found => Some (path, found)
      | _ => fun _ => None
      end r
  end.

Definition probes (tr : list obs) : list (string * bool) := omap probe tr.

(** The calls that look at the file system. *)
Definition touches_files (ev : event) : bool :=
  match ev with
  | PathExists _ | Glob _ | ReadText _ | OpenWrite _ | Rmtree _ | Makedirs _ => true
  | _ => false
  end.

(** The specification's lookup table: the two supported grids with their
    sowing date file and harvest date file. *)
Definition spec_crop_date_files : list (string * (string * string)) := [
  ("10x15",
   ("/glade/work/samrabin/crop_dates_blessed/sdates_ggcmi_crop_calendar_phase3_v1.01_nninterp-f10_f10_mg37.2000-2000.20230330_165301.fill1.nc",
    "/glade/work/samrabin/crop_dates_blessed/hdates_ggcmi_crop_calendar_phase3_v1.01_nninterp-f10_f10_mg37.2000-2000.20230330_165301.fill1.nc"));
  ("1.9x2.5",
   ("/glade/work/samrabin/crop_dates_blessed/sdates_ggcmi_crop_calendar_phase3_v1.01_nninterp-f19_g17.2000-2000.20230102_175625.fill1.nc",
    "/glade/work/samrabin/crop_dates_blessed/hdates_ggcmi_crop_calendar_phase3_v1.01_nninterp-f19_g17.2000-2000.20230102_175625.fill1.nc"))
].

Fixpoint spec_lookup {V : Type} (key : string) (table : list (string * V)) : option V :=
  match table with
  | [] => None
  | (k, v) :: rest => if String.eqb key k then Some v else spec_lookup key rest
  end.

(** The lines written to standard output in a trace, in order. *)
Definition printed_line (ob : obs) : option string :=
  match obs_event ob with
  | Stdout line => Some line
  | _ => None
  end.

Definition printed (tr : list obs) : list string := omap printed_line tr.

(** The subprocesses of a trace: command, redirection, and what came of
    it (an exception of the start, or the return code and the captured
    output). *)
Definition spawn_of (ob : obs) : option (string * redirect * (exn + Z * option string)) :=
  match ob with
  | Obs ev r =>
      match ev return answer ev -> option (string * redirect * (exn + Z * option string)) with
      | Spawn command out => fun res => Some (command, out, res)
      | _ => fun _ => None
      end r
  end.

Definition spawned (tr : list obs) : list (string * redirect * (exn + Z * option string)) :=
  omap spawn_of tr.

(** The answers to [glob.glob] in a trace: pattern and matching paths. *)
Definition glob_of (ob : obs) : option (string * list string) :=
  match ob with
  | Obs ev r =>
      match ev return answer ev -> option (string * list string) with
      | Glob pattern => fun found => Some (pattern, found)
      | _ => fun _ => None
      end r
  end.

Definition globbed (tr : list obs) : list (string * list string) := omap glob_of tr.

(** What [_run_python_script] puts before the command: the environment
    script of the case, then the activation of the conda environment,
    preceded by a module swap when [which conda] failed. *)
Definition activation (caseroot : string) (conda_found : bool) : string :=
  (". " +:+ caseroot +:+ "/.env_mach_specific.sh; ")
  +:+ (if conda_found then " " else "module unload python; module load conda;")
  +:+ " conda run -n " +:+ this_conda_env +:+ " ".

(** An environment for examples, in which every call succeeds: the
    variables of the case, the files that exist, the paths that a glob
    finds, the text of a file and the return code of a command are given
    by functions. *)
Record scenario : Type := mkScenario {
  sc_int : string -> Z;
  sc_str : string -> string;
  sc_exists : string -> bool;
  sc_glob : string -> list string;
  sc_text : string -> string;
  sc_returncode : string -> Z
}.

Definition scripted (sc : scenario) : handler unit :=
  fun ev w =>
    (match ev return answer ev with
     | GetInt _ key => sc_int sc key
     | GetStr _ key => sc_str sc key
     | GetCaseroot => sc_str sc "CASEROOT"
     | CreateClone _ _ _ => inr 1%nat
     | PathExists path => sc_exists sc path
     | Glob pattern => sc_glob sc pattern
     | ReadText path => inr (sc_text sc path)
     | Spawn command _ => inr (sc_returncode sc command, None)
     | LoggerInfo _ | LoggerError _ | Stdout _ | CloseFile _ => ()
     | _ => inr ()
     end, w).

(** The six case names with their colours, as a table. *)
Definition case_color_table : list (string * list Q) := [
  ("5.2 lu", rgb [250; 102; 240]);
  ("5.0 lu", rgb [92; 219; 219]);
  ("prescribed sowing", rgb [133; 92; 255]);
  ("prescribed maturity", rgb [128; 0; 0]);
  ("prescribed calendars", rgb [250; 102; 240]);
  ("clm default", rgb [92; 219; 219])
].

(** The specification's normalisation of a case name: lower case, and one
    marker [" (0)"] or [" (1)"] removed from the end. *)
Fixpoint spec_strip_trailing_marker (s : string) : string :=
  match s with
  | EmptyString => EmptyString
  | String c rest =>
      if (String.eqb s " (0)" || String.eqb s " (1)")%bool then EmptyString
      else String c (spec_strip_trailing_marker rest)
  end.

Definition spec_cropcal_colors_cases (casename : string) : option (list Q) :=
  spec_lookup (spec_strip_trailing_marker (PyStr.lower casename)) case_color_table.

(** Strings all of whose characters satisfy a test: blanks, text without
    a newline, text without a single quote. *)
Fixpoint all_chars (P : ascii -> bool) (s : string) : bool :=
  match s with
  | EmptyString => true
  | String c rest => P c && all_chars P rest
  end.

Definition blank (s : string) : bool := all_chars (fun c => Ascii.eqb c " ") s.
Definition no_newline (s : string) : bool := all_chars (fun c => negb (Ascii.eqb c PyStr.newline)) s.
Definition no_quote (s : string) : bool := all_chars (fun c => negb (Ascii.eqb c "'")) s.

(** A line of [lnd_in] that the pattern of the scanner does not match. *)
Definition unmatched (line : string) : Prop :=
  Re.match_group1 flanduse_timeseries_re line = None.

(** The files that a trace opens for writing, with what came of it, and
    the files that it closes. *)
Definition open_of (ob : obs) : option (string * (exn + unit)) :=
  match ob with
  | Obs ev r =>
      match ev return answer ev -> option (string * (exn + unit)) with
      | OpenWrite path => fun res => Some (path, res)
      | _ => fun _ => None
      end r
  end.

Definition opened (tr : list obs) : list (string * (exn + unit)) := omap open_of tr.

Definition close_of (ob : obs) : option string :=
  match obs_event ob with
  | CloseFile path => Some path
  | _ => None
  end.

Definition closed (tr : list obs) : list string := omap close_of tr.

Definition successfully (opening : string * (exn + unit)) : option string :=
  match opening with
  | (path, inr _) => Some path
  | (_, inl _) => None
  end.

Definition is_called_process_error (e : exn) : bool :=
  match e with
  | CalledProcessError _ _ _ => true
  | _ => false
  end.

(** A call that the environment answered with an exception; a trace in
    which no call was. *)
Definition raised (ob : obs) : bool :=
  match ob with
  | Obs ev r =>
      (match can_raise ev as b
             return (if b then (exn + result ev)%type else result ev) -> bool
       with
       | true => fun r => match r with inl _ => true | inr _ => false end
       | false => fun _ => false
       end) r
  end.

Definition undisturbed (tr : list obs) : Prop :=
  Forall (fun ob => raised ob = false) tr.


(** The command lines of the two tools that work on the usable seasons,
    by the bounds they are given: [generate_gdds.py] with the archive of
    the GDD-generating case, [check_rxboth_run.py] with the root of the
    case. *)
Definition derivation_command (self : RXCROPMATURITY) (dout_sr : string)
    (first_season last_season : Z) : string :=
  PyStr.join " " [
    "python3 " +:+ crop_calendars_tool self "generate_gdds.py";
    "--input-dir " +:+ OsPath.join dout_sr ["lnd"; "hist"];
    "--first-season " +:+ PyStr.of_Z first_season;
    "--last-season " +:+ PyStr.of_Z last_season;
    "--sdates-file " +:+ _sdatefile self;
    "--hdates-file " +:+ _hdatefile self;
    "--output-dir generate_gdds_out"
  ].

Definition validation_command (self : RXCROPMATURITY) (caseroot : string)
    (first_usable_year last_usable_year : Z) : string :=
  "python3 " +:+ crop_calendars_tool self "check_rxboth_run.py"
  +:+ " " +:+ "--directory " +:+ OsPath.join caseroot ["run"]
  +:+ " " +:+ "-y1 " +:+ PyStr.of_Z first_usable_year
  +:+ " " +:+ "-yN " +:+ PyStr.of_Z last_usable_year
  +:+ " " +:+ "--rx-sdates-file " +:+ _sdatefile self
  +:+ " " +:+ "--rx-gdds-file " +:+ _gdds_file self +:+ " ".

(** [invokes p command]: the program [p] runs the tool with a command line
    [command x] ([x] is what the environment chooses).  Every subprocess
    that [p] starts besides [which conda] is such a command behind the
    activation of the environment; [p] starts one, with its output sent to
    a log, in every run in which no call raises; and a run of [p] that
    returns has started one that returned 0. *)
Definition invokes {A X : Type} (p : prog A) (command : X -> string) : Prop :=
  forall tr o,
    exec p tr o ->
    (forall cmd redir res,
        In (cmd, redir, res) (spawned tr) ->
        cmd = "which conda"
        \/ exists caseroot found x, cmd = activation caseroot found +:+ command x)
    /\ (undisturbed tr ->
        exists caseroot found x log res,
          In (activation caseroot found +:+ command x, ToFile log, res) (spawned tr))
    /\ (forall a,
          o = inr a ->
          exists caseroot found x log output,
            In (activation caseroot found +:+ command x, ToFile log, inr (0, output))
               (spawned tr)).



(** A case whose root has ["fill0"] in its path, after the tool has
    written its file. *)
Definition object_under_fill0 : RXCROPMATURITY :=
  mkRXCROPMATURITY 1%nat 5 "/scratch/fill0_tests/case.gddgen" "/ctsm" 2000
    "/dates/sdates.nc" "/dates/hdates.nc" "" None "" "" "" false.

Definition gdds_written_under_fill0 : scenario :=
  mkScenario (fun _ => 0) (fun _ => "/scratch/fill0_tests/case") (fun _ => true)
    (fun _ => ["/scratch/fill0_tests/case.gddgen/generate_gdds_out/gdds_20230405.nc"])
    (fun _ => "") (fun _ => 0).

(** ** The phases of the test *)

(** [never P p]: whatever the answers of the environment, the program [p]
    makes no call that satisfies [P].  [silent P tr]: no call of the trace
    [tr] satisfies [P]. *)
Fixpoint never {A : Type} (P : event -> bool) (p : prog A) : Prop :=
  match p with
  | Ret _ | Raise _ => True
  | Vis ev k => P ev = false /\ forall r, never P (k r)
  end.

Definition silent (P : event -> bool) (tr : list obs) : Prop :=
  Forall (fun ob => P (obs_event ob) = false) tr.

(** The directory trees that a trace removes, in order. *)
Definition removes (ev : event) : bool :=
  match ev with
  | Rmtree _ => true
  | _ => false
  end.

Definition removed_tree (ob : obs) : option string :=
  match obs_event ob with
  | Rmtree path => Some path
  | _ => None
  end.

Definition removed (tr : list obs) : list string := omap removed_tree tr.

(** The runs of the model in a trace: the suffix and the archiving that
    each [run_indv] is given, in order. *)
Definition runs_model (ev : event) : bool :=
  match ev with
  | RunIndv _ _ => true
  | _ => false
  end.

Definition model_run (ob : obs) : option (arg (option string) * arg bool) :=
  match obs_event ob with
  | RunIndv suffix st_archive => Some (suffix, st_archive)
  | _ => None
  end.

Definition model_runs (tr : list obs) : list (arg (option string) * arg bool) :=
  omap model_run tr.

(** The files that a trace reads, with what came of it. *)
Definition reads (ev : event) : bool :=
  match ev with
  | ReadText _ => true
  | _ => false
  end.

Definition text_read (ob : obs) : option (string * (exn + string)) :=
  match ob with
  | Obs ev r =>
      match ev return answer ev -> option (string * (exn + string)) with
      | ReadText path => fun res => Some (path, res)
      | _ => fun _ => None
      end r
  end.

Definition texts_read (tr : list obs) : list (string * (exn + string)) :=
  omap text_read tr.

(** The calls by which the test makes its own land use file: the check of
    the input data, the log of [make_lu_for_gddgen.py], and a line for
    [flanduse_timeseries] in [user_nl_clm]. *)
Definition makes_land_use (ev : event) : bool :=
  match ev with
  | CheckAllInputData _ => true
  | OpenWrite path => String.eqb path "make_lu_for_gddgen.py.log"
  | AppendToUserNlFiles _ _ contents => String.prefix "flanduse_timeseries" contents
  | _ => false
  end.

Definition reads_or_makes_land_use (ev : event) : bool :=
  reads ev || makes_land_use ev.

(** The milestones of a trace: the runs of the model, the discovery of
    the maturity requirements, and the line of [user_nl_clm] that
    prescribes them. *)
Inductive milestone : Type :=
| ModelRun (suffix : arg (option string)) (st_archive : arg bool)
| Discovery (pattern : string) (found : list string)
| Prescribes (line : string).

Definition gdds_line (contents : string) : bool :=
  String.prefix "stream_fldFileName_cultivar_gdds" contents.

Definition marks (ev : event) : bool :=
  match ev with
  | RunIndv _ _ | Glob _ => true
  | AppendToUserNlFiles _ _ contents => gdds_line contents
  | _ => false
  end.

Definition milestone_of (ob : obs) : option milestone :=
  match ob with
  | Obs ev r =>
      match ev return answer ev -> option milestone with
      | RunIndv suffix st_archive => fun _ => Some (ModelRun suffix st_archive)
      | Glob pattern => fun found => Some (Discovery pattern found)
      | AppendToUserNlFiles _ _ contents =>
          fun _ => if gdds_line contents then Some (Prescribes contents) else None
      | _ => fun _ => None
      end r
  end.

Definition milestones (tr : list obs) : list milestone := omap milestone_of tr.

(** A test of five years from 2000 on the 10x15 grid in which every call
    succeeds: a clone is left from an earlier attempt, [lnd_in] names no
    land use file, and the derivation tool writes the requirements and
    their [fill0] variant; and the object at its end. *)
Definition case_variables (key : string) : string :=
  if String.eqb key "CASEROOT" then "/case"
  else if String.eqb key "COMP_ROOT_DIR_LND" then "/ctsm"
  else if String.eqb key "RUN_STARTDATE" then "2000-01-01"
  else if String.eqb key "LND_GRID" then "10x15"
  else if String.eqb key "LND_DOMAIN_MESH" then "/meshes/10x15.nc"
  else "/archive".

Definition lnd_in_without_land_use : string :=
  "&clm_inparm" +:+ String PyStr.newline
    (" fsurdat = '/inputdata/surfdata.nc'" +:+ String PyStr.newline "/").

Definition whole_test : scenario :=
  mkScenario (fun _ => 5) case_variables (fun _ => true)
    (fun _ => ["/case.gddgen/generate_gdds_out/gdds_20230405_101112.nc";
               "/case.gddgen/generate_gdds_out/gdds_fill0_20230405_101112.nc"])
    (fun _ => lnd_in_without_land_use) (fun _ => 0).

Definition object_after_whole_test : RXCROPMATURITY :=
  mkRXCROPMATURITY 0%nat 5 "/case.gddgen" "/ctsm" 2000
    "/glade/work/samrabin/crop_dates_blessed/sdates_ggcmi_crop_calendar_phase3_v1.01_nninterp-f10_f10_mg37.2000-2000.20230330_165301.fill1.nc"
    "/glade/work/samrabin/crop_dates_blessed/hdates_ggcmi_crop_calendar_phase3_v1.01_nninterp-f10_f10_mg37.2000-2000.20230330_165301.fill1.nc"
    "/case.gddgen/CaseDocs/lnd_in" None "" "/case.gddgen/generate_gdds_out"
    "/case.gddgen/generate_gdds_out/gdds_20230405_101112.nc" false.

(** The sowing dates are in place, the harvest dates are not. *)
Definition harvest_dates_missing : scenario :=
  mkScenario (fun _ => 5) case_variables
    (fun path => String.prefix "/glade/work/samrabin/crop_dates_blessed/sdates" path)
    (fun _ => []) (fun _ => "") (fun _ => 0).

(** * Properties *)

#[local] Arguments PyNum.truediv : simpl never.
#[local] Set Warnings "-unused-intro-pattern".

(** ** Traces *)

Lemma Obs_inj ev (r r' : answer ev) : Obs ev r = Obs ev r' -> r = r'.
Proof.
  intros H. inversion H as [H1].
  apply (Eqdep_dec.inj_pair2_eq_dec _ event_eq_dec) in H1. exact H1.
Qed.

(** Every run in an environment is an execution. *)
Lemma run_exec {W A} (h : handler W) (p : prog A) w :
  exec p (run h p w).1.1 (run h p w).1.2.
Proof.
  revert w. induction p as [a|e|ev k IH]; intros w; simpl; auto.
  destruct (h ev w) as [r w1] eqn:E.
  specialize (IH r w1). destruct (run h (k r) w1) as [[tr o] w2]. simpl in *.
  eauto.
Qed.

Lemma exec_bind {A B} (p : prog A) (f : A -> prog B) tr o :
  exec (bind p f) tr o <->
  (exists e, exec p tr (inl e) /\ o = inl e) \/
  (exists a tr1 tr2, exec p tr1 (inr a) /\ exec (f a) tr2 o /\ tr = tr1 ++ tr2).
Proof.
  revert tr. induction p as [a|e|ev k IH]; intros tr; simpl.
  - split.
    + intros H. right. exists a, [], tr. auto.
    + intros [(e & [_ He] & _)|(a' & tr1 & tr2 & [-> Ha] & H & ->)]; [done|].
      inversion Ha; subst. exact H.
  - split.
    + intros [-> ->]. left. eauto.
    + intros [(e' & [-> He] & ->)|(a' & tr1 & tr2 & [_ Ha] & _)]; [|done].
      inversion He; subst. done.
  - split.
    + intros (r & tr' & -> & H). apply IH in H.
      destruct H as [(e & H & ->)|(a & tr1 & tr2 & H1 & H2 & ->)].
      * left. exists e. split; eauto.
      * right. exists a, (Obs ev r :: tr1), tr2. split; eauto.
    + intros [(e & (r & tr' & -> & H) & ->)|(a & tr1 & tr2 & (r & tr' & -> & H1) & H2 & ->)].
      * exists r, tr'. split; [done|]. apply IH. left. eauto.
      * exists r, (tr' ++ tr2). split; [done|]. apply IH. right. eauto 6.
Qed.

Lemma exec_vis_cons {A} ev (k : answer ev -> prog A) r tr o :
  exec (Vis ev k) (Obs ev r :: tr) o <-> exec (k r) tr o.
Proof.
  simpl. split.
  - intros (r' & tr' & Heq & H).
    assert (tr = tr') as <- by exact (f_equal (@List.tl _) Heq).
    assert (Obs ev r = Obs ev r') as Hr
      by exact (f_equal (fun l => match l with x :: _ => x | [] => Obs ev r end) Heq).
    apply Obs_inj in Hr. by subst.
  - intros H. eauto.
Qed.

(** Inversion of an execution: one call after the other, with a case
    distinction on each answer that the program inspects. *)
Ltac destruct_answer r :=
  cbn in r;
  match type of r with
  | bool => destruct r
  | unit => destruct r
  | (_ + unit)%type => destruct r as [?|[]]
  | (_ + (_ * _))%type => destruct r as [?|[? ?]]
  | (_ + _)%type => destruct r as [?|?]
  | _ => idtac
  end.

Ltac exec_inv H :=
  repeat (cbn [mbind prog_bind bind mret prog_ret print call can_raise exec negb] in H;
          match type of H with
          | exists _, _ =>
              let r := fresh "r" in
              let tr := fresh "tr" in
              destruct H as (r & tr & -> & H); destruct_answer r
          | _ /\ _ => destruct H as [-> ->]
          end).


(** The same for the programs that catch exceptions and test return
    codes. *)
Ltac exec_cases H :=
  repeat (cbn [mbind prog_bind bind catch mret prog_ret print call can_raise exec
               negb for_each lift] in H;
          match type of H with
          | exists _, _ =>
              let r := fresh "r" in
              let tr := fresh "tr" in
              destruct H as (r & tr & -> & H); destruct_answer r
          | _ /\ _ => destruct H as [-> ->]
          | context [if ?b then _ else _] => destruct b eqn:?
          | context [match ?e with RuntimeError _ => _ | _ => _ end] => destruct e
          end).

(** Building an execution along an explicit trace. *)
Ltac exec_intro :=
  repeat (cbn;
          first [ split; reflexivity
                | do 2 eexists; split; [reflexivity|] ]).

(** ** The run-length validator *)

Lemma normalize_known_unit t u n :
  In u (unit_names t) ->
  normalize_run_length n u = (years ← spec_converted t n; mret (years, "nyears")).
Proof.
  intros Hu.
  destruct t; simpl in Hu; destruct Hu as [<-|[<-|[]]];
    unfold normalize_run_length, spec_converted, divide_if; simpl;
    repeat (match goal with
            | |- context [PyNum.truediv ?a ?b] =>
                destruct (PyNum.truediv a b) eqn:?; simpl; try reflexivity
            end).
Qed.

(** [int] of a number that is not below 5 is its floor. *)
Lemma to_int_floor v :
  PyNum.lt v 5 = false -> PyNum.to_int v = Qfloor (PyNum.value v).
Proof.
  destruct v as [z|[a b]]; simpl; intros H.
  - by rewrite Z.div_1_r.
  - apply negb_false_iff, Qle_bool_iff in H.
    unfold Qle in H. simpl in H.
    apply Z.quot_div_nonneg; lia.
Qed.

Lemma init_exec case n u rest o :
  exec (__init__ case) (init_prefix case n u ++ rest) o <->
  exec (run_Nyears ← check_run_length n u; mret (new_object case run_Nyears)) rest o.
Proof.
  unfold __init__, init_prefix. simpl app.
  cbn [mbind prog_bind bind call can_raise].
  rewrite exec_vis_cons. cbn [bind].
  rewrite exec_vis_cons. cbn [bind].
  rewrite exec_vis_cons. cbn [bind]. reflexivity.
Qed.

(** The runs of the validator, by the result of the conversion. *)
Lemma check_run_length_exec n u tr o :
  exec (check_run_length n u) tr o <->
  match normalize_run_length n u with
  | inl e => tr = [] /\ o = inl e
  | inr (years, unit) =>
      if PyNum.lt years 5
      then tr = [Obs (LoggerError (length_error_message n u)) ()]
           /\ o = inl (RuntimeError (length_error_message n u))
      else if negb (PyStr.contains "nyear" unit)
      then tr = [Obs (LoggerError (unit_error_message u)) ()]
           /\ o = inl (RuntimeError (unit_error_message u))
      else tr = [] /\ o = inr (PyNum.to_int years)
  end.
Proof.
  unfold check_run_length.
  destruct (normalize_run_length n u) as [e|[years unit]]; simpl; [done|].
  destruct (PyNum.lt years 5), (negb (PyStr.contains "nyear" unit)); simpl;
    try reflexivity;
    (split; [intros ([] & tr' & -> & -> & ->); done | intros [-> ->]; eauto]).
Qed.

(** C1. For every stop count [n] and every stop unit [u] that names
    seconds, minutes, hours, days or months, the validator converts [n] to
    years by the divisions of the unit's chain (60, 60, 24, 365 from
    seconds on, or 12 for months).  When the converted value is at least 5
    the object is built, and the number of run years it stores (its
    [_run_Nyears]) is the floor of the converted value; when it is below 5
    construction fails; and when a quotient is too large for a float the
    division itself raises. *)
Theorem run_years_floor_of_converted case t u n rest o :
  In u (unit_names t) ->
  exec (__init__ case) (init_prefix case n u ++ rest) o ->
  match spec_converted t n with
  | inl e => rest = [] /\ o = inl e
  | inr years =>
      if PyNum.lt years 5
      then rest = [Obs (LoggerError (length_error_message n u)) ()]
           /\ o = inl (RuntimeError (length_error_message n u))
      else rest = []
           /\ exists self,
                o = inr self
                /\ _case self = case
                /\ _run_Nyears self = Qfloor (PyNum.value years)
  end.
Proof.
  intros Hu H. apply init_exec in H.
  apply (exec_bind (check_run_length n u)) in H.
  setoid_rewrite check_run_length_exec in H.
  rewrite (normalize_known_unit t u n Hu) in H.
  destruct (spec_converted t n) as [e|years]; simpl in H.
  - destruct H as [(e' & [-> He] & ->)|(a & tr1 & tr2 & [_ Ha] & _)]; [|done].
    by inversion He.
  - destruct (PyNum.lt years 5) eqn:Hlt.
    + destruct H as [(e' & [-> He] & ->)|(a & tr1 & tr2 & [_ Ha] & _)]; [|done].
      by inversion He.
    + destruct H as [(e' & [_ He] & _)|(a & tr1 & tr2 & [-> Ha] & [-> ->] & ->)]; [done|].
      inversion Ha; subst. split; [reflexivity|].
      eexists. split; [reflexivity|]. split; [reflexivity|].
      cbn [_run_Nyears new_object]. by apply to_int_floor.
Qed.

(** 1900 days are 5 whole years. *)
Lemma run_years_floor_of_converted_witness :
  let rest : list obs := [] in
  let o : outcome RXCROPMATURITY := inr (new_object 0%nat 5) in
  In "ndays" (unit_names Days)
  /\ exec (__init__ 0%nat) (init_prefix 0%nat 1900 "ndays" ++ rest) o
  /\ match spec_converted Days 1900 with
     | inl e => rest = [] /\ o = inl e
     | inr years =>
         if PyNum.lt years 5
         then rest = [Obs (LoggerError (length_error_message 1900 "ndays")) ()]
              /\ o = inl (RuntimeError (length_error_message 1900 "ndays"))
         else rest = []
              /\ exists self,
                   o = inr self
                   /\ _case self = 0%nat
                   /\ _run_Nyears self = Qfloor (PyNum.value years)
     end.
Proof.
  intros rest o.
  assert (Hu : In "ndays" (unit_names Days)) by (left; reflexivity).
  assert (H : exec (__init__ 0%nat) (init_prefix 0%nat 1900 "ndays" ++ rest) o).
  { apply init_exec.
    apply (proj2 (exec_bind (check_run_length 1900 "ndays")
                    (fun r => Ret (new_object 0%nat r)) rest o)).
    right. exists 5, [], [].
    split; [|split; [split; reflexivity|reflexivity]].
    apply (proj2 (check_run_length_exec 1900 "ndays" [] (inr 5))).
    vm_compute. split; reflexivity. }
  split; [exact Hu|]. split; [exact H|].
  exact (run_years_floor_of_converted 0%nat Days "ndays" 1900 rest o Hu H).
Defined.

(** A unit in which none of the six names occurs is left as it is. *)
Lemma normalize_unknown_unit n u :
  reduces_to_years u = false -> normalize_run_length n u = inr (PyInt n, u).
Proof.
  unfold reduces_to_years. intros H.
  repeat (apply orb_false_elim in H; destruct H as [H ?]).
  unfold normalize_run_length, divide_if. simpl.
  repeat match goal with
         | E : PyStr.contains _ u = false |- _ => rewrite E; clear E; simpl
         end.
  reflexivity.
Qed.

(** What [__init__] does with such a unit: the message about the unit is
    the one that is raised only when the stop count is at least 5; below 5
    the message about the length takes its place. *)
Lemma unknown_unit_runs case n u rest o :
  reduces_to_years u = false ->
  exec (__init__ case) (init_prefix case n u ++ rest) o ->
  if n <? 5
  then rest = [Obs (LoggerError (length_error_message n u)) ()]
       /\ o = inl (RuntimeError (length_error_message n u))
  else rest = [Obs (LoggerError (unit_error_message u)) ()]
       /\ o = inl (RuntimeError (unit_error_message u)).
Proof.
  intros Hu H. apply init_exec in H.
  apply (exec_bind (check_run_length n u)) in H.
  setoid_rewrite check_run_length_exec in H.
  rewrite (normalize_unknown_unit n u Hu) in H. simpl in H.
  assert (PyStr.contains "nyear" u = false) as Hy.
  { unfold reduces_to_years in Hu. by apply orb_false_elim in Hu as [_ ?]. }
  rewrite Hy in H. simpl in H.
  destruct (n <? 5);
    destruct H as [(e' & [-> He] & ->)|(a & tr1 & tr2 & [_ Ha] & _)]; try done;
    by inversion He.
Qed.

(** C2, at ([STOP_N], [STOP_OPTION]) = (3, "nsteps"): the unit does not
    reduce to years, and construction fails, but with the message about
    the run length; the run that would raise the message about the unit
    does not exist. *)
Theorem unit_error_overwritten_by_length_error :
  reduces_to_years "nsteps" = false
  /\ exec (__init__ 0%nat)
       (init_prefix 0%nat 3 "nsteps"
        ++ [Obs (LoggerError
                   "RXCROPMATURITY must be run for at least 5 years; you requested 3 steps")
              ()])
       (inl (RuntimeError
               "RXCROPMATURITY must be run for at least 5 years; you requested 3 steps"))
  /\ forall rest,
       ~ exec (__init__ 0%nat) (init_prefix 0%nat 3 "nsteps" ++ rest)
           (inl (RuntimeError (unit_error_message "nsteps"))).
Proof.
  split; [reflexivity|]. split.
  - apply init_exec.
    apply (proj2 (exec_bind (check_run_length 3 "nsteps")
                    (fun r => Ret (new_object 0%nat r)) _ _)).
    left. eexists. split; [|reflexivity].
    apply (proj2 (check_run_length_exec 3 "nsteps" _ _)).
    vm_compute. split; reflexivity.
  - intros rest H. apply unknown_unit_runs in H; [|reflexivity].
    simpl in H. destruct H as [_ H]. discriminate H.
Qed.

(** [__init__] creates no clone and starts no subprocess, however it
    ends. *)
Lemma init_never_clones_or_spawns case tr o :
  exec (__init__ case) tr o ->
  Forall (fun ob => clones_or_spawns (obs_event ob) = false) tr.
Proof.
  intros H. unfold __init__ in H.
  cbn [mbind prog_bind bind call can_raise exec] in H.
  destruct H as (r & tr1 & -> & H).
  constructor; [done|].
  destruct r as [e|[]]; cbn [bind exec] in H.
  { destruct H as [-> ->]. constructor. }
  destruct H as (n & tr2 & -> & H). constructor; [done|].
  destruct H as (u & tr3 & -> & H). constructor; [done|].
  fold (@bind Z RXCROPMATURITY) in H.
  apply exec_bind in H. setoid_rewrite check_run_length_exec in H.
  destruct (normalize_run_length n u) as [e|[years unit]].
  - destruct H as [(e' & [-> He] & ->)|(a & tr1 & tr2 & [_ Ha] & _)]; [|done].
    constructor.
  - destruct (PyNum.lt years 5); [|destruct (negb _)];
    destruct H as [(e' & [-> He] & ->)|(a & tr1 & tr2 & [-> Ha] & [-> ->] & ->)];
      try done; repeat constructor.
Qed.

(** C3. Whenever the stop count, converted by the validator, is below 5,
    whatever the unit, construction logs the message about the run length
    and raises it as a [RuntimeError]; nothing else happens after the two
    reads, and no call of the whole construction creates a clone or starts
    a subprocess. *)
Theorem short_run_rejected_at_construction case n u years unit rest o :
  normalize_run_length n u = inr (years, unit) ->
  PyNum.lt years 5 = true ->
  exec (__init__ case) (init_prefix case n u ++ rest) o ->
  rest = [Obs (LoggerError (length_error_message n u)) ()]
  /\ o = inl (RuntimeError (length_error_message n u))
  /\ Forall (fun ob => clones_or_spawns (obs_event ob) = false)
       (init_prefix case n u ++ rest).
Proof.
  intros Hn Hlt H.
  pose proof (init_never_clones_or_spawns _ _ _ H) as Hno.
  apply init_exec in H.
  apply (exec_bind (check_run_length n u)) in H.
  setoid_rewrite check_run_length_exec in H.
  rewrite Hn, Hlt in H.
  destruct H as [(e' & [-> He] & ->)|(a & tr1 & tr2 & [_ Ha] & _)]; [|done].
  inversion He; subst. auto.
Qed.

(** Three years are too short. *)
Lemma short_run_rejected_at_construction_witness :
  let msg := "RXCROPMATURITY must be run for at least 5 years; you requested 3 years" in
  let rest := [Obs (LoggerError msg) ()] in
  let o : outcome RXCROPMATURITY := inl (RuntimeError msg) in
  normalize_run_length 3 "nyears" = inr (PyInt 3, "nyears")
  /\ PyNum.lt (PyInt 3) 5 = true
  /\ exec (__init__ 0%nat) (init_prefix 0%nat 3 "nyears" ++ rest) o
  /\ rest = [Obs (LoggerError (length_error_message 3 "nyears")) ()]
  /\ o = inl (RuntimeError (length_error_message 3 "nyears"))
  /\ Forall (fun ob => clones_or_spawns (obs_event ob) = false)
       (init_prefix 0%nat 3 "nyears" ++ rest).
Proof.
  intros msg rest o.
  assert (Hn : normalize_run_length 3 "nyears" = inr (PyInt 3, "nyears"))
    by reflexivity.
  assert (Hlt : PyNum.lt (PyInt 3) 5 = true) by reflexivity.
  assert (H : exec (__init__ 0%nat) (init_prefix 0%nat 3 "nyears" ++ rest) o).
  { apply init_exec.
    apply (proj2 (exec_bind (check_run_length 3 "nyears")
                    (fun r => Ret (new_object 0%nat r)) rest o)).
    left. eexists. split; [|reflexivity].
    apply (proj2 (check_run_length_exec 3 "nyears" _ _)).
    vm_compute. split; reflexivity. }
  split; [exact Hn|]. split; [exact Hlt|]. split; [exact H|].
  exact (short_run_rejected_at_construction 0%nat 3 "nyears" (PyInt 3) "nyears"
           rest o Hn Hlt H).
Defined.

(** ** The crop calendar files of a grid *)

(** C4. Once [LND_GRID] is read, the resolver behaves as the lookup table
    of the two supported grids says.  For a grid of the table it probes the
    sowing date file and then the harvest date file of that grid: it returns
    the object with exactly this pair when both exist, and fails with a
    bare [raise] as soon as one does not.  For every other grid it fails
    with a bare [raise] without a single call that looks at the file
    system. *)
Theorem crop_date_files_resolved self grid rest o :
  exec (get_crop_date_files self)
       (Obs (GetStr (_case self) "LND_GRID") grid :: rest) o ->
  match spec_lookup grid spec_crop_date_files with
  | Some (sdates, hdates) =>
      (probes rest = [(sdates, true); (hdates, true)]
       /\ o = inr (set_hdatefile (set_sdatefile self sdates) hdates))
      \/ (probes rest = [(sdates, true); (hdates, false)] /\ o = inl bare_raise)
      \/ (probes rest = [(sdates, false)] /\ o = inl bare_raise)
  | None =>
      Forall (fun ob => touches_files (obs_event ob) = false) rest
      /\ o = inl bare_raise
  end.
Proof.
  intros H. unfold get_crop_date_files in H.
  cbn [mbind prog_bind bind call can_raise] in H.
  apply exec_vis_cons in H.
  cbn [spec_lookup spec_crop_date_files].
  destruct (String.eqb grid "10x15") eqn:E1; [|destruct (String.eqb grid "1.9x2.5") eqn:E2].
  all: exec_inv H.
  all: try (left; split; reflexivity).
  all: try (right; left; split; reflexivity).
  all: try (right; right; split; reflexivity).
  split; [|reflexivity]. repeat constructor.
Qed.

(** The 10x15 grid with both files in place. *)
Lemma crop_date_files_resolved_witness :
  let self := new_object 0%nat 5 in
  let sdates := "/glade/work/samrabin/crop_dates_blessed/sdates_ggcmi_crop_calendar_phase3_v1.01_nninterp-f10_f10_mg37.2000-2000.20230330_165301.fill1.nc" in
  let hdates := "/glade/work/samrabin/crop_dates_blessed/hdates_ggcmi_crop_calendar_phase3_v1.01_nninterp-f10_f10_mg37.2000-2000.20230330_165301.fill1.nc" in
  let rest := [Obs (PathExists sdates) true; Obs (PathExists hdates) true] in
  let o : outcome RXCROPMATURITY :=
    inr (set_hdatefile (set_sdatefile self sdates) hdates) in
  exec (get_crop_date_files self)
       (Obs (GetStr (_case self) "LND_GRID") "10x15" :: rest) o
  /\ match spec_lookup "10x15" spec_crop_date_files with
     | Some (sdates, hdates) =>
         (probes rest = [(sdates, true); (hdates, true)]
          /\ o = inr (set_hdatefile (set_sdatefile self sdates) hdates))
         \/ (probes rest = [(sdates, true); (hdates, false)] /\ o = inl bare_raise)
         \/ (probes rest = [(sdates, false)] /\ o = inl bare_raise)
     | None =>
         Forall (fun ob => touches_files (obs_event ob) = false) rest
         /\ o = inl bare_raise
     end.
Proof.
  intros self sdates hdates rest o.
  assert (H : exec (get_crop_date_files self)
                (Obs (GetStr (_case self) "LND_GRID") "10x15" :: rest) o)
    by (unfold get_crop_date_files; exec_intro).
  split; [exact H|].
  exact (crop_date_files_resolved self "10x15" rest o H).
Defined.

(** ** The subprocess runner *)

(** The runs of [_run_python_script]: it never probes or globs the file
    system; besides [which conda] it starts only the command it was given,
    behind the activation of the environment and with its output sent to
    the log of the tool; a non-zero return code of that command is
    reported and raised; and it returns only when the command returned 0. *)
Lemma run_python_script_inv case command tool_path tr o :
  exec (_run_python_script case command tool_path) tr o ->
  let log := OsPath.basename tool_path +:+ ".log" in
  probes tr = [] /\ globbed tr = []
  /\ (forall cmd out res,
        In (cmd, out, res) (spawned tr) ->
        (cmd = "which conda" /\ out = Inherit)
        \/ (out = ToFile log
            /\ exists caseroot found, cmd = activation caseroot found +:+ command))
  /\ (forall cmd out rc output,
        In (cmd, ToFile out, inr (rc, output)) (spawned tr) ->
        rc <> 0 ->
        printed tr
        = ("command: " +:+ cmd)
            :: diagnostic_guidance (OsPath.basename tool_path)
            ++ [PyRepr.of_option output]
        /\ o = inl (CalledProcessError rc cmd output))
  /\ (o = inr () ->
      exists cmd output, In (cmd, ToFile log, inr (0, output)) (spawned tr)).
Proof.
  intros H log. subst log.
  unfold _run_python_script, _get_conda_env, _get_caseroot, with_open_w,
    subprocess_run, diagnostic_guidance in H.
  exec_cases H.
  all: split; [reflexivity|]; split; [reflexivity|]; split; [|split].
  all: try (intros xcmd xout xres Hin; simpl in Hin;
            repeat (destruct Hin as [Hin|Hin]; [inversion Hin; subst; clear Hin|]);
            try contradiction;
            first [ left; split; reflexivity
                  | right; split; [reflexivity|];
                    first [ eexists _, true; reflexivity
                          | eexists _, false; reflexivity ] ]).
  all: try (intros xcmd xout xrc xoutput Hin Hrc; simpl in Hin;
            repeat (destruct Hin as [Hin|Hin]; [inversion Hin; subst; clear Hin|]);
            try contradiction;
            first [ split; reflexivity | exfalso; apply Hrc; by apply Z.eqb_eq ]).
  all: try (intros Ho; try discriminate Ho;
            repeat match goal with E : (_ =? 0) = true |- _ => apply Z.eqb_eq in E; subst end;
            do 2 eexists; simpl; eauto).
Qed.

(** When no call raises, the runner starts the command it was given, with
    its output sent to the log of the tool. *)
Ltac undisturbed_inv Hall :=
  repeat (let Hr := fresh "Hr" in
          apply Forall_cons_1 in Hall as [Hr Hall];
          cbn in Hr; try discriminate Hr; clear Hr).


Lemma run_python_script_started case command tool_path tr o :
  exec (_run_python_script case command tool_path) tr o ->
  undisturbed tr ->
  exists caseroot found res,
    In (activation caseroot found +:+ command,
        ToFile (OsPath.basename tool_path +:+ ".log"), res) (spawned tr).
Proof.
  intros H Hall.
  unfold _run_python_script, _get_conda_env, _get_caseroot, with_open_w,
    subprocess_run, diagnostic_guidance in H.
  exec_cases H.
  all: unfold undisturbed in Hall; undisturbed_inv Hall.
  all: first [ eexists _, true, _; cbn; right; left; reflexivity
             | eexists _, false, _; cbn; right; left; reflexivity ].
Qed.

(** A run of the runner that returns has started that command, and it
    returned 0. *)
Lemma run_python_script_returned case command tool_path tr :
  exec (_run_python_script case command tool_path) tr (inr ()) ->
  exists caseroot found output,
    In (activation caseroot found +:+ command,
        ToFile (OsPath.basename tool_path +:+ ".log"), inr (0, output)) (spawned tr).
Proof.
  intros H.
  destruct (run_python_script_inv _ _ _ _ _ H) as (_ & _ & Hs & _ & Hok).
  destruct (Hok eq_refl) as (cmd & output & Hin).
  destruct (Hs _ _ _ Hin) as [[_ Hout]|(_ & caseroot & found & ->)]; [discriminate Hout|].
  by exists caseroot, found, output.
Qed.


(** A tool that exits with code 1 in an environment where everything else
    works. *)
Definition failing_tool : scenario :=
  mkScenario (fun _ => 0) (fun _ => "/case") (fun _ => true) (fun _ => [])
    (fun _ => "") (fun cmd => if String.eqb cmd "which conda" then 0 else 1).


(** ** Projections of traces *)

Lemma spawned_app tr1 tr2 : spawned (tr1 ++ tr2) = spawned tr1 ++ spawned tr2.
Proof. apply omap_app. Qed.
Lemma globbed_app tr1 tr2 : globbed (tr1 ++ tr2) = globbed tr1 ++ globbed tr2.
Proof. apply omap_app. Qed.
Lemma printed_app tr1 tr2 : printed (tr1 ++ tr2) = printed tr1 ++ printed tr2.
Proof. apply omap_app. Qed.


(** ** The land-use file of the GDD-generating run *)



Definition object_2000 : RXCROPMATURITY :=
  mkRXCROPMATURITY 1%nat 5 "/case.gddgen" "/ctsm" 2000
    "/dates/sdates.nc" "/dates/hdates.nc" "/case.gddgen/CaseDocs/lnd_in"
    (Some "/inputdata/landuse.nc") "" "" "" false.


(** ** Deriving and checking the maturity requirements *)

(** The runs of [_run_generate_gdds]: at most one glob, made after the
    tool has returned 0, and no tool but [generate_gdds.py]. *)
Lemma run_generate_gdds_inv self case_gddgen tr o :
  exec (_run_generate_gdds self case_gddgen) tr o ->
  let dir := OsPath.join (_path_gddgen self) ["generate_gdds_out"] in
  match globbed tr with
  | [] => exists e, o = inl e
  | [(pattern, found)] =>
      pattern = OsPath.join dir ["gdds_*.nc"]
      /\ (exists cmd log output, In (cmd, ToFile log, inr (0, output)) (spawned tr))
      /\ match filter (fun x => negb (PyStr.contains "fill0" x)) found with
         | [only] => o = inr (set_gdds_file (set_generate_gdds_dir self dir) only)
         | _ => o = inl bare_raise
         end
  | _ => False
  end
  /\ forall cmd redir res,
       In (cmd, redir, res) (spawned tr) ->
       cmd = "which conda"
       \/ exists caseroot found dout_sr,
           cmd = activation caseroot found
                 +:+ PyStr.join " " [
                       "python3 " +:+ crop_calendars_tool self "generate_gdds.py";
                       "--input-dir " +:+ OsPath.join dout_sr ["lnd"; "hist"];
                       "--first-season " +:+ PyStr.of_Z (_run_startyear self + 2);
                       "--last-season "
                         +:+ PyStr.of_Z (_run_startyear self + _run_Nyears self - 2);
                       "--sdates-file " +:+ _sdatefile self;
                       "--hdates-file " +:+ _hdatefile self;
                       "--output-dir generate_gdds_out"
                     ].
Proof.
  intros H dir. subst dir.
  unfold _run_generate_gdds in H.
  cbn [mbind prog_bind bind call can_raise exec] in H.
  destruct H as (r & tr1 & -> & H). destruct r as [e|[]]; cbn [bind exec] in H.
  { destruct H as [-> ->]. cbn. split; [eauto|]. intros ? ? ? []. }
  destruct H as (dout & tr2 & -> & H). cbn [bind] in H. cbn in dout.
  cbn [_generate_gdds_dir set_generate_gdds_dir _run_startyear _run_Nyears
       _sdatefile _hdatefile _path_gddgen] in H.
  apply exec_bind in H.
  destruct H as [(e & H & ->)|(a & tr3 & tr4 & H & H4 & ->)];
    destruct (run_python_script_inv _ _ _ _ _ H) as (_ & Hg & Hs & _ & Hok).
  - change (globbed (_ :: _ :: tr2)) with (globbed tr2).
    change (spawned (_ :: _ :: tr2)) with (spawned tr2).
    rewrite Hg. split; [eauto|].
    intros cmd redir res Hin.
    destruct (Hs _ _ _ Hin) as [[-> _]|(_ & caseroot & found & ->)]; [by left|].
    right. by exists caseroot, found, dout.
  - destruct a. specialize (Hok eq_refl) as (cmd0 & output0 & Hin0).
    change (globbed (_ :: _ :: tr3 ++ tr4)) with (globbed (tr3 ++ tr4)).
    change (spawned (_ :: _ :: tr3 ++ tr4)) with (spawned (tr3 ++ tr4)).
    rewrite globbed_app, Hg, spawned_app. cbn [app].
    cbn [exec] in H4. destruct H4 as (found & tr5 & -> & H4). cbn in found.
    cbn [mbind prog_bind bind] in H4.
    destruct (filter (fun x => negb (PyStr.contains "fill0" x)) found)
      as [|only [|another more]] eqn:E.
    all: exec_cases H4; cbn [globbed spawned omap list_omap glob_of spawn_of].
    all: rewrite ?app_nil_r.
    all: (split;
          [split; [reflexivity|]; split;
           [eexists cmd0, _, output0; exact Hin0|]; rewrite E; reflexivity|]).
    all: intros cmd redir res Hin;
      (destruct (Hs _ _ _ Hin) as [[-> _]|(_ & caseroot & found' & ->)]; [by left|]);
      right; by exists caseroot, found', dout.
Qed.


(** The tool has written the requirements and their [fill0] variant. *)
Definition gdds_written : scenario :=
  mkScenario (fun _ => 0) (fun _ => "/case") (fun _ => true)
    (fun _ => ["/case.gddgen/generate_gdds_out/gdds_20230405_101112.nc";
               "/case.gddgen/generate_gdds_out/gdds_fill0_20230405_101112.nc"])
    (fun _ => "") (fun _ => 0).



(** Both tools are given the usable seasons of the run. *)
Lemma run_generate_gdds_invokes self case_gddgen :
  invokes (_run_generate_gdds self case_gddgen)
    (fun dout_sr =>
       derivation_command self dout_sr
         (_run_startyear self + 2) (_run_startyear self + _run_Nyears self - 2)).
Proof.
  intros tr o H. split; [|split].
  - intros cmd redir res Hin.
    exact (proj2 (run_generate_gdds_inv _ _ _ _ H) cmd redir res Hin).
  - intros Hall. unfold _run_generate_gdds in H.
    cbn [mbind prog_bind bind call can_raise exec] in H.
    destruct H as (r & tr1 & -> & H). apply Forall_cons_1 in Hall as [Hr Hall].
    destruct r as [e|[]]; [discriminate Hr|]. cbn [bind exec] in H.
    destruct H as (dout & tr2 & -> & H). cbn [bind] in H. cbn in dout.
    apply Forall_cons_1 in Hall as [_ Hall].
    cbn [_generate_gdds_dir set_generate_gdds_dir _run_startyear _run_Nyears
         _sdatefile _hdatefile _path_gddgen] in H.
    apply exec_bind in H.
    change (spawned (_ :: _ :: tr2)) with (spawned tr2).
    destruct H as [(e & H & ->)|(a & tr3 & tr4 & H & H4 & ->)].
    + destruct (run_python_script_started _ _ _ _ _ H Hall) as (caseroot & found & res & Hin).
      exists caseroot, found, dout. eexists _, res. exact Hin.
    + apply Forall_app in Hall as [Hall _].
      destruct (run_python_script_started _ _ _ _ _ H Hall) as (caseroot & found & res & Hin).
      exists caseroot, found, dout. eexists _, res.
      rewrite spawned_app. apply in_or_app. left. exact Hin.
  - intros a ->. unfold _run_generate_gdds in H.
    cbn [mbind prog_bind bind call can_raise exec] in H.
    destruct H as (r & tr1 & -> & H).
    destruct r as [e|[]]; cbn [bind exec] in H; [by destruct H|].
    destruct H as (dout & tr2 & -> & H). cbn [bind] in H. cbn in dout.
    cbn [_generate_gdds_dir set_generate_gdds_dir _run_startyear _run_Nyears
         _sdatefile _hdatefile _path_gddgen] in H.
    apply exec_bind in H.
    change (spawned (_ :: _ :: tr2)) with (spawned tr2).
    destruct H as [(e & _ & He)|(u & tr3 & tr4 & H & _ & ->)]; [discriminate He|].
    destruct u.
    destruct (run_python_script_returned _ _ _ _ H) as (caseroot & found & output & Hin).
    exists caseroot, found, dout. eexists _, output.
    rewrite spawned_app. apply in_or_app. left. exact Hin.
Qed.

Lemma run_check_rxboth_run_invokes self :
  invokes (_run_check_rxboth_run self)
    (fun caseroot =>
       validation_command self caseroot
         (_run_startyear self + 2) (_run_startyear self + _run_Nyears self - 2)).
Proof.
  intros tr o H.
  unfold _run_check_rxboth_run, _get_caseroot in H.
  cbn [mbind prog_bind bind call can_raise exec] in H.
  destruct H as (root & tr1 & -> & H). cbn in root.
  change (spawned (_ :: tr1)) with (spawned tr1).
  split; [|split].
  - intros cmd redir res Hin.
    destruct (run_python_script_inv _ _ _ _ _ H) as (_ & _ & Hs & _).
    destruct (Hs _ _ _ Hin) as [[-> _]|(_ & caseroot & found & ->)]; [by left|].
    right. by exists caseroot, found, root.
  - intros Hall. apply Forall_cons_1 in Hall as [_ Hall].
    destruct (run_python_script_started _ _ _ _ _ H Hall) as (caseroot & found & res & Hin).
    exists caseroot, found, root. eexists _, res. exact Hin.
  - intros [] ->.
    destruct (run_python_script_returned _ _ _ _ H) as (caseroot & found & output & Hin).
    exists caseroot, found, root. eexists _, output. exact Hin.
Qed.

(** C6. With start year [S] and [N] run years, [_run_generate_gdds]
    invokes the derivation tool with [--first-season S+2] and
    [--last-season S+N-2], and [_run_check_rxboth_run] invokes the
    validation tool with [-y1 S+2] and [-yN S+N-2]: each method starts its
    tool in every run in which no call raises, a run of it that returns has
    run its tool to a return code of 0, and no subprocess that it starts,
    [which conda] apart, is anything but its tool with these bounds.  For
    [N = 5] the bounds of both are [S+2] and [S+3]. *)
Theorem usable_seasons_trimmed_by_two self case_gddgen :
  let S := _run_startyear self in
  let N := _run_Nyears self in
  invokes (_run_generate_gdds self case_gddgen)
    (fun dout_sr => derivation_command self dout_sr (S + 2) (S + N - 2))
  /\ invokes (_run_check_rxboth_run self)
       (fun caseroot => validation_command self caseroot (S + 2) (S + N - 2))
  /\ (N = 5 ->
      invokes (_run_generate_gdds self case_gddgen)
        (fun dout_sr => derivation_command self dout_sr (S + 2) (S + 3))
      /\ invokes (_run_check_rxboth_run self)
           (fun caseroot => validation_command self caseroot (S + 2) (S + 3))).
Proof.
  intros S N.
  pose proof (run_generate_gdds_invokes self case_gddgen) as Hg.
  pose proof (run_check_rxboth_run_invokes self) as Hc.
  fold S N in Hg, Hc.
  split; [exact Hg|]. split; [exact Hc|].
  intros HN. replace (S + 3) with (S + N - 2) by lia. split; [exact Hg|exact Hc].
Qed.

(** The object after the discovery of the maturity file. *)
Definition object_2000_gdds : RXCROPMATURITY :=
  set_gdds_file object_2000 "/case.gddgen/generate_gdds_out/gdds_20230405_101112.nc".

(** Five years from 2000: both tools are run on the seasons 2002 and
    2003. *)
Lemma usable_seasons_trimmed_by_two_witness :
  let p1 := _run_generate_gdds object_2000 1%nat in
  let tr1 := (run (scripted gdds_written) p1 ()).1.1 in
  let o1 := (run (scripted gdds_written) p1 ()).1.2 in
  let p2 := _run_check_rxboth_run object_2000_gdds in
  let tr2 := (run (scripted gdds_written) p2 ()).1.1 in
  let o2 := (run (scripted gdds_written) p2 ()).1.2 in
  (exec p1 tr1 o1
   /\ spawned tr1
      = [("which conda", Inherit, inr (0, None));
         (activation "/case" true
          +:+ "python3 /ctsm/python/ctsm/crop_calendars/generate_gdds.py --input-dir /case/lnd/hist --first-season 2002 --last-season 2003 --sdates-file /dates/sdates.nc --hdates-file /dates/hdates.nc --output-dir generate_gdds_out",
          ToFile "generate_gdds.py.log", inr (0, None))]
   /\ invokes p1 (fun dout_sr => derivation_command object_2000 dout_sr 2002 2003))
  /\ (exec p2 tr2 o2
      /\ spawned tr2
         = [("which conda", Inherit, inr (0, None));
            (activation "/case" true
             +:+ "python3 /ctsm/python/ctsm/crop_calendars/check_rxboth_run.py --directory /case/run -y1 2002 -yN 2003 --rx-sdates-file /dates/sdates.nc --rx-gdds-file /case.gddgen/generate_gdds_out/gdds_20230405_101112.nc ",
             ToFile "check_rxboth_run.py.log", inr (0, None))]
      /\ invokes p2 (fun caseroot => validation_command object_2000_gdds caseroot 2002 2003)).
Proof.
  intros p1 tr1 o1 p2 tr2 o2.
  split; (split; [apply run_exec|]); (split; [vm_compute; reflexivity|]).
  - exact (proj1 (proj2 (proj2 (usable_seasons_trimmed_by_two object_2000 1%nat)) eq_refl)).
  - exact (proj2 (proj2 (proj2 (usable_seasons_trimmed_by_two object_2000_gdds 1%nat))
                    eq_refl)).
Defined.

(** ** The colours of the cases *)

Lemma spec_lookup_None {V} (k : string) (table : list (string * V)) :
  spec_lookup k table = None <-> ~ In k (map fst table).
Proof.
  induction table as [|[k' v] table IH]; simpl; [tauto|].
  destruct (String.eqb_spec k k') as [->|Hne].
  - split; [discriminate|]. intros H. exfalso. apply H. by left.
  - rewrite IH. split; [intros H [Heq|Hin]; [congruence|tauto] | tauto].
Qed.

(** The dictionary holds the six names of the table with their colours,
    and nothing else. *)
Lemma case_color_dict_lookup (k : string) :
  case_color_dict !! k = spec_lookup k case_color_table.
Proof.
  unfold case_color_dict.
  rewrite !lookup_total_insert_ne by done.
  rewrite !lookup_total_insert_eq.
  rewrite !lookup_total_insert_ne by done.
  rewrite !lookup_total_insert_eq.
  cbn [spec_lookup case_color_table].
  repeat match goal with
         | |- context [String.eqb k ?s] =>
             destruct (String.eqb_spec k s) as [->|?];
             [by simplify_map_eq | rewrite (lookup_insert_ne _ s k) by done]
         end.
  apply lookup_empty.
Qed.

(** C10, as amended.  For every case name, the helper lowercases the
    name, removes every occurrence of [" (0)"] and then every occurrence
    of [" (1)"], wherever they stand, and looks the result up: it returns
    the fixed colour of the six recognised names, and [None] exactly for
    the names that are none of the six. *)
Theorem case_colors_after_removing_markers casename :
  let normalised :=
    PyStr.replace " (1)" "" (PyStr.replace " (0)" "" (PyStr.lower casename)) in
  cropcal_colors_cases casename = spec_lookup normalised case_color_table
  /\ (cropcal_colors_cases casename = None
      <-> ~ In normalised
            ["5.2 lu"; "5.0 lu"; "prescribed sowing"; "prescribed maturity";
             "prescribed calendars"; "clm default"]).
Proof.
  intros normalised.
  assert (cropcal_colors_cases casename = spec_lookup normalised case_color_table)
    as Heq.
  { unfold cropcal_colors_cases. fold normalised.
    rewrite case_color_dict_lookup. by destruct (spec_lookup _ _). }
  split; [exact Heq|]. rewrite Heq. apply spec_lookup_None.
Qed.

(** The claim as stated fails on a marker that is not at the end: the
    code removes it and finds the colour, where stripping a trailing
    marker leaves a name that is none of the six. *)
Lemma marker_inside_name_is_removed :
  cropcal_colors_cases "CLM (0) Default" = Some (rgb [92; 219; 219])
  /\ spec_cropcal_colors_cases "CLM (0) Default" = None.
Proof. split; vm_compute; reflexivity. Qed.

(** On names that carry at most one marker, at the end, the two agree. *)
Example case_colors_examples :
  cropcal_colors_cases "CLM Default (1)" = Some (rgb [92; 219; 219])
  /\ cropcal_colors_cases "5.2 LU" = Some (rgb [250; 102; 240])
  /\ cropcal_colors_cases "Prescribed Sowing (0)" = Some (rgb [133; 92; 255])
  /\ cropcal_colors_cases "some other case" = None.
Proof. repeat split; vm_compute; reflexivity. Qed.

(** ** The namelist scanner *)

Lemma star_blank c p sp s :
  blank sp = true -> c <> " "%char ->
  Re.match_here (Re.Star " " :: Re.Lit c :: p) (sp +:+ String c s)
  = Re.match_here p s.
Proof.
  intros Hsp Hc. induction sp as [|d sp IH].
  - change ("" +:+ String c s) with (String c s).
    cbn [Re.match_here Re.star_loop].
    destruct (Ascii.eqb_spec " " c) as [E|_]; [congruence|].
    by rewrite Ascii.eqb_refl.
  - change (String d sp +:+ String c s) with (String d (sp +:+ String c s)).
    cbn [blank all_chars] in Hsp.
    apply andb_prop in Hsp as [Hd Hsp]. apply Ascii.eqb_eq in Hd. subst d.
    specialize (IH Hsp). cbn [Re.match_here] in IH.
    cbn [Re.match_here Re.star_loop]. rewrite Ascii.eqb_refl, IH.
    destruct (Re.match_here p s); [reflexivity|].
    destruct (Ascii.eqb_spec c " ") as [E|_]; [congruence|]. reflexivity.
Qed.

Lemma group_no_quote rest :
  no_quote rest = true ->
  Re.group_loop (Re.match_here [Re.Lit "'"]) rest = None.
Proof.
  induction rest as [|c rest IH]; intros H; [reflexivity|].
  cbn [no_quote all_chars] in H. apply andb_prop in H as [Hc H].
  apply negb_true_iff in Hc.
  cbn [Re.group_loop]. rewrite (IH H). cbn [Re.match_here].
  rewrite (Ascii.eqb_sym "'" c), Hc.
  by destruct (Ascii.eqb c PyStr.newline).
Qed.

Lemma group_greedy X rest :
  no_newline X = true -> no_quote rest = true ->
  Re.group_loop (Re.match_here [Re.Lit "'"]) (X +:+ String "'" rest) = Some X.
Proof.
  intros HX Hrest. induction X as [|c X IH].
  - change ("" +:+ String "'" rest) with (String "'" rest).
    cbn [Re.group_loop]. rewrite (group_no_quote rest Hrest).
    reflexivity.
  - change (String c X +:+ String "'" rest) with (String c (X +:+ String "'" rest)).
    cbn [no_newline all_chars] in HX. apply andb_prop in HX as [Hc HX].
    apply negb_true_iff in Hc.
    cbn [Re.group_loop]. rewrite (IH HX), Hc. reflexivity.
Qed.

Lemma lits_match cs p t :
  Re.match_here (map Re.Lit (list_ascii_of_string cs) ++ p) (cs +:+ t)
  = Re.match_here p t.
Proof.
  induction cs as [|c cs IH]; [reflexivity|].
  change (String c cs +:+ t) with (String c (cs +:+ t)).
  cbn [list_ascii_of_string map app Re.match_here].
  by rewrite Ascii.eqb_refl.
Qed.

Lemma flanduse_line_matches sp1 sp2 sp3 X rest :
  blank sp1 = true -> blank sp2 = true -> blank sp3 = true ->
  no_newline X = true -> no_quote rest = true ->
  Re.match_group1 flanduse_timeseries_re
    (sp1 +:+ "flanduse_timeseries" +:+ sp2 +:+ "=" +:+ sp3
     +:+ "'" +:+ X +:+ "'" +:+ rest)
  = Some X.
Proof.
  intros H1 H2 H3 HX Hrest. unfold Re.match_group1.
  change (Re.compile flanduse_timeseries_re)
    with (Re.Star " " :: Re.Lit "f"
          :: (map Re.Lit (list_ascii_of_string "landuse_timeseries")
              ++ [Re.Star " "; Re.Lit "="; Re.Star " "; Re.Lit "'";
                  Re.GroupAnyStar; Re.Lit "'"])).
  change ("flanduse_timeseries" +:+ ?t) with (String "f" ("landuse_timeseries" +:+ t)).
  rewrite star_blank by (done || discriminate).
  rewrite lits_match.
  change ("=" +:+ ?t) with (String "=" t).
  rewrite star_blank by (done || discriminate).
  change ("'" +:+ X +:+ "'" +:+ rest) with (String "'" (X +:+ String "'" rest)).
  rewrite star_blank by (done || discriminate).
  cbn [Re.match_here]. by apply group_greedy.
Qed.

Lemma scan_namelist_skips pattern before line after :
  Forall (fun l => Re.match_group1 pattern l = None) before ->
  scan_namelist pattern (before ++ line :: after)
  = match Re.match_group1 pattern line with
    | Some value => Some value
    | None => scan_namelist pattern after
    end.
Proof.
  induction 1 as [|l before Hl _ IH]; [reflexivity|].
  cbn [app scan_namelist]. by rewrite Hl.
Qed.

Lemma scan_namelist_None pattern lnd_in :
  scan_namelist pattern lnd_in = None
  <-> Forall (fun l => Re.match_group1 pattern l = None) lnd_in.
Proof.
  induction lnd_in as [|l lnd_in IH]; cbn [scan_namelist].
  - split; [constructor|reflexivity].
  - destruct (Re.match_group1 pattern l) eqn:E.
    + split; [discriminate|]. intros H. inversion H; congruence.
    + rewrite IH. split; [by constructor|]. intros H. by inversion H.
Qed.

(** C7. If the first line of the namelist that the pattern matches reads
    [flanduse_timeseries = 'X'], with any number of blanks before the key
    and around the equals sign, [X] free of newlines, and no further quote
    after the closing one, then the scanner yields exactly [X].  And the
    scanner yields [None], without raising, exactly when no line
    matches. *)
Theorem flanduse_timeseries_scanned :
  (forall before after sp1 sp2 sp3 X rest,
      Forall unmatched before ->
      blank sp1 = true -> blank sp2 = true -> blank sp3 = true ->
      no_newline X = true -> no_quote rest = true ->
      scan_namelist flanduse_timeseries_re
        (before
         ++ (sp1 +:+ "flanduse_timeseries" +:+ sp2 +:+ "=" +:+ sp3
             +:+ "'" +:+ X +:+ "'" +:+ rest)
         :: after)
      = Some X)
  /\ (forall lnd_in,
        scan_namelist flanduse_timeseries_re lnd_in = None
        <-> Forall unmatched lnd_in).
Proof.
  split.
  - intros before after sp1 sp2 sp3 X rest Hb H1 H2 H3 HX Hrest.
    rewrite scan_namelist_skips by exact Hb.
    by rewrite flanduse_line_matches.
  - intros lnd_in. apply scan_namelist_None.
Qed.

(** A namelist as CIME writes it. *)
Lemma flanduse_timeseries_scanned_witness :
  let nl := String PyStr.newline "" in
  let before := ["&clm_inparm" +:+ nl; " fsurdat = '/inputdata/surfdata.nc'" +:+ nl] in
  let after := [" use_crop = .true." +:+ nl; "/" +:+ nl] in
  Forall unmatched before
  /\ scan_namelist flanduse_timeseries_re
       (before
        ++ (" " +:+ "flanduse_timeseries" +:+ " " +:+ "=" +:+ " "
            +:+ "'" +:+ "/inputdata/landuse.timeseries_10x15.nc" +:+ "'" +:+ nl)
        :: after)
     = Some "/inputdata/landuse.timeseries_10x15.nc".
Proof.
  intros nl before after.
  assert (Hb : Forall unmatched before) by (repeat constructor).
  split; [exact Hb|].
  exact (proj1 flanduse_timeseries_scanned before after " " " " " "
           "/inputdata/landuse.timeseries_10x15.nc" nl Hb
           eq_refl eq_refl eq_refl eq_refl eq_refl).
Defined.

(** * Further properties of the code *)

(** ** Construction *)

(** [int] of a number that is not below 5 is at least 5. *)
Lemma to_int_at_least_five v : PyNum.lt v 5 = false -> 5 <= PyNum.to_int v.
Proof.
  intros H. rewrite (to_int_floor v H).
  destruct v as [z|x]; unfold PyNum.lt, PyNum.value in *.
  - rewrite Qfloor_Z. lia.
  - apply negb_false_iff, Qle_bool_iff in H.
    apply Qfloor_resp_le in H. by rewrite Qfloor_Z in H.
Qed.

(** Every object that [__init__] returns runs on the case it was given
    and stores at least 5 run years, so that the range of usable seasons
    that the later stages compute, from the start year plus 2 to the start
    year plus the run years minus 2, holds at least two seasons. *)
Theorem constructed_object_has_two_usable_seasons case tr self :
  exec (__init__ case) tr (inr self) ->
  _case self = case
  /\ 5 <= _run_Nyears self
  /\ forall run_startyear, run_startyear + 2 < run_startyear + _run_Nyears self - 2.
Proof.
  intros H. unfold __init__ in H.
  cbn [mbind prog_bind bind call can_raise exec] in H.
  destruct H as (r & tr1 & -> & H).
  destruct r as [e|[]]; cbn [bind exec] in H; [by destruct H|].
  destruct H as (n & tr2 & -> & H). destruct H as (u & tr3 & -> & H).
  fold (@bind Z RXCROPMATURITY) in H.
  apply exec_bind in H. setoid_rewrite check_run_length_exec in H.
  destruct H as [(e & _ & He)|(years & tr4 & tr5 & H & [_ Ho] & _)]; [done|].
  inversion Ho; subst self. cbn [_case _run_Nyears new_object].
  assert (5 <= years) as Hy.
  { destruct (normalize_run_length n u) as [e|[v unit]]; [by destruct H|].
    destruct (PyNum.lt v 5) eqn:Hlt; [by destruct H|].
    destruct (negb _); [by destruct H|].
    destruct H as [_ H]. inversion H. by apply to_int_at_least_five. }
  split; [reflexivity|]. split; [exact Hy|]. intros. lia.
Qed.

Lemma init_1900_days :
  exec (__init__ 0%nat) (init_prefix 0%nat 1900 "ndays")
    (inr (new_object 0%nat 5)).
Proof.
  change (init_prefix 0%nat 1900 "ndays")
    with (init_prefix 0%nat 1900 "ndays" ++ []).
  apply init_exec.
  apply (proj2 (exec_bind (check_run_length 1900 "ndays")
                  (fun r => Ret (new_object 0%nat r)) [] _)).
  right. exists 5, [], [].
  split; [|split; [split; reflexivity|reflexivity]].
  apply (proj2 (check_run_length_exec 1900 "ndays" [] (inr 5))).
  vm_compute. split; reflexivity.
Qed.

Lemma constructed_object_has_two_usable_seasons_witness :
  exec (__init__ 0%nat) (init_prefix 0%nat 1900 "ndays")
    (inr (new_object 0%nat 5))
  /\ 5 <= _run_Nyears (new_object 0%nat 5).
Proof.
  split; [exact init_1900_days|].
  exact (proj1 (proj2 (constructed_object_has_two_usable_seasons 0%nat _ _
                         init_1900_days))).
Defined.

(** ** More on the subprocess runner *)

(** The runs of [_run_python_script], as to the log file and to failures
    that are no [CalledProcessError]. *)
Lemma run_python_script_inv2 case command tool_path tr o :
  exec (_run_python_script case command tool_path) tr o ->
  let tool_name := OsPath.basename tool_path in
  closed tr = omap successfully (opened tr)
  /\ (forall path res, In (path, res) (opened tr) -> path = tool_name +:+ ".log")
  /\ (forall e,
        is_called_process_error e = false ->
        In (tool_name +:+ ".log", inl e) (opened tr)
        \/ (exists cmd, In (cmd, ToFile (tool_name +:+ ".log"), inl e) (spawned tr)) ->
        o = inl e
        /\ last (printed tr) = Some ("ERROR trying to run " +:+ tool_name +:+ ".")).
Proof.
  intros H tool_name. subst tool_name.
  unfold _run_python_script, _get_conda_env, _get_caseroot, with_open_w,
    subprocess_run, diagnostic_guidance in H.
  exec_cases H.
  all: split; [reflexivity|]; split.
  all: try (intros xpath xres Hin; simpl in Hin;
            repeat (destruct Hin as [Hin|Hin]; [inversion Hin; subst; clear Hin|]);
            try contradiction; reflexivity).
  all: intros xe Hcpe [Hin|[xcmd Hin]]; simpl in Hin;
    repeat (destruct Hin as [Hin|Hin]; [inversion Hin; subst; clear Hin|]);
    try contradiction; try discriminate Hcpe;
    split; reflexivity.
Qed.

(** In every run of [_run_python_script], the only file opened is the log
    of the tool, and it is closed exactly when it was opened successfully,
    whether the command succeeds, exits with an error code or cannot be
    started. *)
Theorem tool_log_is_always_closed case command tool_path tr o :
  exec (_run_python_script case command tool_path) tr o ->
  closed tr = omap successfully (opened tr)
  /\ forall path res,
       In (path, res) (opened tr) -> path = OsPath.basename tool_path +:+ ".log".
Proof.
  intros H. destruct (run_python_script_inv2 _ _ _ _ _ H) as (H1 & H2 & _).
  split; [exact H1 | exact H2].
Qed.

Lemma tool_log_is_always_closed_witness :
  let p := _run_python_script 0%nat "python3 /ctsm/tool.py" "/ctsm/tool.py" in
  let tr := (run (scripted failing_tool) p ()).1.1 in
  let o := (run (scripted failing_tool) p ()).1.2 in
  exec p tr o
  /\ opened tr = [("tool.py.log", inr ())]
  /\ closed tr = omap successfully (opened tr).
Proof.
  intros p tr o.
  assert (H : exec p tr o) by apply run_exec.
  split; [exact H|]. split; [reflexivity|].
  exact (proj1 (tool_log_is_always_closed 0%nat _ _ tr o H)).
Defined.

(** When the log cannot be opened, or the command cannot be started, with
    an exception that is no [CalledProcessError], the runner prints
    ["ERROR trying to run <tool>."] as its last line and raises that same
    exception. *)
Theorem unexpected_failure_is_reported_and_reraised case command tool_path tr o e :
  exec (_run_python_script case command tool_path) tr o ->
  is_called_process_error e = false ->
  In (OsPath.basename tool_path +:+ ".log", inl e) (opened tr)
  \/ (exists cmd,
        In (cmd, ToFile (OsPath.basename tool_path +:+ ".log"), inl e) (spawned tr)) ->
  o = inl e
  /\ last (printed tr)
     = Some ("ERROR trying to run " +:+ OsPath.basename tool_path +:+ ".").
Proof.
  intros H He Hin.
  destruct (run_python_script_inv2 _ _ _ _ _ H) as (_ & _ & H3).
  exact (H3 e He Hin).
Qed.

Lemma unexpected_failure_is_reported_and_reraised_witness :
  let p := _run_python_script 0%nat "python3 /ctsm/tool.py" "/ctsm/tool.py" in
  let e := EnvError "PermissionError: tool.py.log" in
  let cmd := activation "/case" true +:+ "python3 /ctsm/tool.py" in
  let tr := [Obs (LoadEnv 0%nat true) (inr ()); Obs GetCaseroot "/case";
             Obs (Spawn "which conda" Inherit) (inr (0, None));
             Obs (Stdout ("command: " +:+ cmd)) ();
             Obs (OpenWrite "tool.py.log") (inl e);
             Obs (Stdout "ERROR trying to run tool.py.") ()] in
  let o : outcome unit := inl e in
  exec p tr o
  /\ o = inl e
  /\ last (printed tr) = Some "ERROR trying to run tool.py.".
Proof.
  intros p e cmd tr o.
  assert (H : exec p tr o)
    by (unfold p, _run_python_script, _get_conda_env, _get_caseroot,
          with_open_w, subprocess_run; exec_intro).
  split; [exact H|].
  apply (unexpected_failure_is_reported_and_reraised 0%nat _ _ tr o e H eq_refl).
  left. left. reflexivity.
Defined.

(** The activation of the conda environment: after a successful
    [which conda] it is a blank and [conda run -n ctsm_pylib]; when
    [which conda] exits with an error code, or raises a
    [CalledProcessError], the module swap is put before it; any other
    exception of the start propagates.  No other call is made. *)
Theorem conda_activation_falls_back_to_modules tr o :
  exec _get_conda_env tr o ->
  exists res,
    tr = [Obs (Spawn "which conda" Inherit) res]
    /\ o = match res with
           | inr (0, _) => inr "  conda run -n ctsm_pylib "
           | inr (_, _) | inl (CalledProcessError _ _ _) =>
               inr "module unload python; module load conda; conda run -n ctsm_pylib "
           | inl e => inl e
           end.
Proof.
  intros H. unfold _get_conda_env, subprocess_run in H.
  cbn [mbind prog_bind bind catch call can_raise exec] in H.
  destruct H as (res & tr1 & -> & H). cbn in res. exists res.
  destruct res as [e|[rc output]].
  - destruct e; cbn [bind catch exec mret prog_ret] in H;
      destruct H as [-> ->]; split; reflexivity.
  - cbn [bind catch exec mret prog_ret] in H.
    destruct (Z.eqb_spec rc 0) as [->|Hrc]; cbn [bind catch exec mret prog_ret] in H;
      destruct H as [-> ->]; split; try reflexivity.
    destruct rc; try reflexivity. congruence.
Qed.

Lemma conda_activation_falls_back_to_modules_witness :
  let tr := [Obs (Spawn "which conda" Inherit) (inr (1, None))] in
  let o : outcome string :=
    inr "module unload python; module load conda; conda run -n ctsm_pylib " in
  exec _get_conda_env tr o
  /\ exists res,
       tr = [Obs (Spawn "which conda" Inherit) res]
       /\ o = match res with
              | inr (0, _) => inr "  conda run -n ctsm_pylib "
              | inr (_, _) | inl (CalledProcessError _ _ _) =>
                  inr "module unload python; module load conda; conda run -n ctsm_pylib "
              | inl e => inl e
              end.
Proof.
  intros tr o.
  assert (H : exec _get_conda_env tr o)
    by (unfold _get_conda_env, subprocess_run; exec_intro).
  split; [exact H|].
  exact (conda_activation_falls_back_to_modules tr o H).
Defined.

(** ** Paths and substrings *)

Lemma prefix_nil s : String.prefix "" s = true.
Proof. by destruct s. Qed.

Lemma contains_app_r needle a b :
  PyStr.contains needle b = true -> PyStr.contains needle (a +:+ b) = true.
Proof.
  intros H. induction a as [|c a IH]; [exact H|].
  change (String c a +:+ b) with (String c (a +:+ b)).
  cbn [PyStr.contains]. rewrite IH. apply orb_true_r.
Qed.

Lemma basename_no_sep s : PyStr.contains "/" s = false -> OsPath.basename s = s.
Proof. intros H. destruct s; [reflexivity|]. cbn [OsPath.basename]. by rewrite H. Qed.

Lemma basename_app q name :
  PyStr.contains "/" name = false ->
  OsPath.basename (q +:+ String "/" name) = name.
Proof.
  intros H. induction q as [|c q IH].
  - change ("" +:+ String "/" name) with (String "/" name).
    cbn [OsPath.basename]. 
    replace (PyStr.contains "/" (String "/" name)) with true
      by (cbn [PyStr.contains String.prefix]; destruct (Ascii.ascii_dec "/" "/"); [by rewrite prefix_nil|congruence]).
    by apply basename_no_sep.
  - change (String c q +:+ String "/" name) with (String c (q +:+ String "/" name)).
    cbn [OsPath.basename].
    replace (PyStr.contains "/" (String c (q +:+ String "/" name))) with true.
    + exact IH.
    + symmetry. apply (contains_app_r "/" (String c q) (String "/" name)).
      cbn [PyStr.contains String.prefix]. destruct (Ascii.ascii_dec "/" "/"); [by rewrite prefix_nil|congruence].
Qed.

Lemma ends_with_sep_split s :
  OsPath.ends_with_sep s = true -> exists q, s = q +:+ "/".
Proof.
  induction s as [|c s IH]; [discriminate|].
  destruct s as [|d s].
  - cbn. intros H. apply Ascii.eqb_eq in H. subst c. by exists "".
  - intros H. change (OsPath.ends_with_sep (String d s) = true) in H.
    destruct (IH H) as [q Hq]. exists (String c q). cbn. by rewrite Hq.
Qed.

Lemma append_assoc (a b c : string) : (a +:+ b) +:+ c = a +:+ b +:+ c.
Proof.
  induction a as [|x a IH]; [reflexivity|].
  change (String x ((a +:+ b) +:+ c) = String x (a +:+ b +:+ c)). by rewrite IH.
Qed.

Lemma basename_join2 path name :
  PyStr.contains "/" name = false -> path <> "" ->
  OsPath.basename (OsPath.join2 path name) = name.
Proof.
  intros Hname Hpath. unfold OsPath.join2.
  assert (String.prefix "/" name = false) as ->.
  { destruct name as [|c name]; [reflexivity|].
    cbn [PyStr.contains] in Hname. by apply orb_false_elim in Hname as [? _]. }
  destruct (String.eqb_spec path "") as [->|_]; [done|]. cbn [orb].
  destruct (OsPath.ends_with_sep path) eqn:E.
  - apply ends_with_sep_split in E as [q ->].
    rewrite append_assoc. by apply basename_app.
  - by apply basename_app.
Qed.

Lemma append_nonempty (a b : string) : b <> "" -> a +:+ b <> "".
Proof. intros Hb. destruct a; [exact Hb|discriminate]. Qed.

Lemma join2_nonempty path b : b <> "" -> OsPath.join2 path b <> "".
Proof.
  intros Hb. unfold OsPath.join2.
  destruct (String.prefix "/" b); [exact Hb|].
  destruct (_ || _)%bool.
  - by apply append_nonempty.
  - apply append_nonempty. discriminate.
Qed.


(** The tools live in [python/ctsm/crop_calendars] under the CTSM root:
    whatever the root, the last component of the path is the script. *)
Lemma tool_basename self script :
  PyStr.contains "/" script = false ->
  OsPath.basename (crop_calendars_tool self script) = script.
Proof.
  intros H. unfold crop_calendars_tool, OsPath.join. cbn [fold_left].
  apply basename_join2; [exact H|]. apply join2_nonempty. discriminate.
Qed.


(** The log of a tool of [crop_calendars] is named after the script alone:
    whatever the CTSM root, every file that the runner opens for a script
    (a name without a slash) is [<script>.log], a path relative to the
    current directory. *)
Theorem tool_log_is_named_after_the_script self case command script tr o :
  PyStr.contains "/" script = false ->
  exec (_run_python_script case command (crop_calendars_tool self script)) tr o ->
  forall path res, In (path, res) (opened tr) -> path = script +:+ ".log".
Proof.
  intros Hs H path res Hin.
  destruct (run_python_script_inv2 _ _ _ _ _ H) as (_ & H2 & _).
  rewrite (H2 path res Hin). by rewrite tool_basename.
Qed.


Lemma tool_log_is_named_after_the_script_witness :
  let p := _run_python_script 1%nat "python3 generate_gdds.py"
             (crop_calendars_tool object_2000 "generate_gdds.py") in
  let tr := (run (scripted gdds_written) p ()).1.1 in
  let o := (run (scripted gdds_written) p ()).1.2 in
  PyStr.contains "/" "generate_gdds.py" = false
  /\ exec p tr o
  /\ opened tr = [("generate_gdds.py.log", inr ())]
  /\ forall path res,
       In (path, res) (opened tr) -> path = "generate_gdds.py" +:+ ".log".
Proof.
  intros p tr o.
  assert (H : exec p tr o) by apply run_exec.
  split; [reflexivity|]. split; [exact H|]. split; [reflexivity|].
  exact (tool_log_is_named_after_the_script object_2000 1%nat _
           "generate_gdds.py" tr o eq_refl H).
Defined.

Lemma prefix_app_l needle s b :
  String.prefix needle s = true -> String.prefix needle (s +:+ b) = true.
Proof.
  revert s. induction needle as [|x needle IH]; intros s H; [apply prefix_nil|].
  destruct s as [|y s]; [discriminate|].
  change (String y s +:+ b) with (String y (s +:+ b)).
  cbn [String.prefix] in *. destruct (Ascii.ascii_dec x y); [|discriminate].
  by apply IH.
Qed.

Lemma contains_app_l needle a b :
  PyStr.contains needle a = true -> PyStr.contains needle (a +:+ b) = true.
Proof.
  induction a as [|c a IH]; intros H.
  - destruct needle; [by destruct b|discriminate].
  - change (String c a +:+ b) with (String c (a +:+ b)).
    cbn [PyStr.contains] in H. apply orb_true_iff in H as [H|H].
    + apply (prefix_app_l _ _ b) in H.
      change (String c a +:+ b) with (String c (a +:+ b)) in H.
      cbn [PyStr.contains]. by rewrite H.
    + cbn [PyStr.contains]. rewrite (IH H). apply orb_true_r.
Qed.

Lemma prefix_across_sep needle a b :
  PyStr.contains "/" needle = false ->
  String.prefix needle (a +:+ String "/" b) = String.prefix needle a.
Proof.
  revert a. induction needle as [|x needle IH]; intros a Hn.
  - by rewrite !prefix_nil.
  - cbn [PyStr.contains] in Hn. apply orb_false_elim in Hn as [Hx Hn].
    assert (x <> "/"%char) as Hne.
    { intros ->. cbn [String.prefix] in Hx.
      destruct (Ascii.ascii_dec "/" "/"); [|congruence].
      by rewrite prefix_nil in Hx. }
    destruct a as [|y a].
    + change ("" +:+ String "/" b) with (String "/" b). cbn [String.prefix].
      by destruct (Ascii.ascii_dec x "/").
    + change (String y a +:+ String "/" b) with (String y (a +:+ String "/" b)).
      cbn [String.prefix]. destruct (Ascii.ascii_dec x y); [|reflexivity].
      apply IH. exact Hn.
Qed.

Lemma contains_across_sep needle a b :
  PyStr.contains "/" needle = false ->
  PyStr.contains needle (a +:+ String "/" b)
  = (PyStr.contains needle a || PyStr.contains needle b)%bool.
Proof.
  intros Hn. induction a as [|c a IH].
  - change ("" +:+ String "/" b) with (String "/" b).
    cbn [PyStr.contains].
    rewrite <- (prefix_across_sep needle "" b Hn).
    change ("" +:+ String "/" b) with (String "/" b).
    by rewrite orb_false_r.
  - change (String c a +:+ String "/" b) with (String c (a +:+ String "/" b)).
    cbn [PyStr.contains]. rewrite IH.
    rewrite <- (prefix_across_sep needle (String c a) b Hn).
    change (String c a +:+ String "/" b) with (String c (a +:+ String "/" b)).
    by rewrite orb_assoc.
Qed.


(** As long as the output directory has no ["fill0"] in its own path, the
    filter of [_run_generate_gdds], which tests the whole path, keeps
    exactly the files whose name is free of ["fill0"]. *)
Theorem fill0_filter_acts_on_file_names dir names :
  PyStr.contains "fill0" dir = false ->
  filter (fun x => negb (PyStr.contains "fill0" x))
         (map (fun name => dir +:+ "/" +:+ name) names)
  = map (fun name => dir +:+ "/" +:+ name)
        (filter (fun name => negb (PyStr.contains "fill0" name)) names).
Proof.
  intros Hdir. induction names as [|name names IH]; [reflexivity|].
  cbn [map]. rewrite !filter_cons.
  change (dir +:+ "/" +:+ name) with (dir +:+ String "/" name).
  rewrite contains_across_sep by reflexivity. rewrite Hdir. cbn [orb].
  destruct (PyStr.contains "fill0" name); cbn [negb].
  - rewrite !decide_False by (intros []). exact IH.
  - rewrite !decide_True by exact I. cbn [map]. by rewrite IH.
Qed.


Lemma fill0_filter_acts_on_file_names_witness :
  let dir := "/case.gddgen/generate_gdds_out" in
  PyStr.contains "fill0" dir = false
  /\ filter (fun x => negb (PyStr.contains "fill0" x))
       (map (fun name => dir +:+ "/" +:+ name)
            ["gdds_20230405.nc"; "gdds_fill0_20230405.nc"])
     = ["/case.gddgen/generate_gdds_out/gdds_20230405.nc"].
Proof.
  intros dir. split; [reflexivity|].
  exact (fill0_filter_acts_on_file_names dir
           ["gdds_20230405.nc"; "gdds_fill0_20230405.nc"] eq_refl).
Defined.

(** But when the path of the clone itself contains ["fill0"] (the case
    root does, say), every path that the glob can find is dropped, and
    [_run_generate_gdds] fails even though the tool has written its
    file. *)
Theorem discovery_fails_when_case_path_contains_fill0 self case_gddgen tr o :
  exec (_run_generate_gdds self case_gddgen) tr o ->
  PyStr.contains "fill0" (_path_gddgen self) = true ->
  (forall pattern found x,
      In (pattern, found) (globbed tr) -> In x found ->
      exists rest, x = _path_gddgen self +:+ rest) ->
  exists e, o = inl e.
Proof.
  intros H Hdir Hfound.
  pose proof (proj1 (run_generate_gdds_inv _ _ _ _ H)) as Hg. cbv zeta in Hg.
  destruct (globbed tr) as [|[pattern found] [|]]; [exact Hg| |contradiction].
  destruct Hg as (_ & _ & Hg).
  assert (filter (fun x => negb (PyStr.contains "fill0" x)) found = []) as E.
  { specialize (Hfound pattern found).
    assert (forall x, In x found -> PyStr.contains "fill0" x = true) as Hall.
    { intros x Hx. destruct (Hfound x (or_introl eq_refl) Hx) as [rest ->].
      by apply contains_app_l. }
    clear -Hall. induction found as [|x found IH]; [reflexivity|].
    rewrite filter_cons, (Hall x (or_introl eq_refl)). cbn [negb].
    rewrite decide_False by (intros []).
    apply IH. intros y Hy. apply Hall. by right. }
  rewrite E in Hg. eauto.
Qed.

Lemma discovery_fails_when_case_path_contains_fill0_witness :
  let p := _run_generate_gdds object_under_fill0 1%nat in
  let tr := (run (scripted gdds_written_under_fill0) p ()).1.1 in
  let o := (run (scripted gdds_written_under_fill0) p ()).1.2 in
  exec p tr o
  /\ globbed tr
     = [("/scratch/fill0_tests/case.gddgen/generate_gdds_out/gdds_*.nc",
         ["/scratch/fill0_tests/case.gddgen/generate_gdds_out/gdds_20230405.nc"])]
  /\ exists e, o = inl e.
Proof.
  intros p tr o.
  assert (H : exec p tr o) by apply run_exec.
  assert (Hg : globbed tr
               = [("/scratch/fill0_tests/case.gddgen/generate_gdds_out/gdds_*.nc",
                   ["/scratch/fill0_tests/case.gddgen/generate_gdds_out/gdds_20230405.nc"])])
    by reflexivity.
  split; [exact H|]. split; [exact Hg|].
  apply (discovery_fails_when_case_path_contains_fill0 object_under_fill0 1%nat
           tr o H eq_refl).
  intros pattern found x Hin Hx. rewrite Hg in Hin.
  destruct Hin as [Hin|[]]. inversion Hin; subst found.
  destruct Hx as [<-|[]].
  exists "/generate_gdds_out/gdds_20230405.nc". reflexivity.
Defined.

(** ** The messages of the resolver *)

(** What [get_crop_date_files] prints: nothing when it returns; when it
    fails, which it does with a bare [raise], one line that says why.  The
    line for a missing harvest date file names the sowing date file
    (line 210 prints [self._sdatefile]). *)
Theorem missing_date_file_is_reported self tr o :
  exec (get_crop_date_files self) tr o ->
  match o with
  | inr self' => printed tr = []
  | inl e =>
      e = bare_raise
      /\ printed tr
         = match probes tr with
           | [] => ["ERROR: RXCROPMATURITY currently only supports 10x15 and 1.9x2.5 resolutions"]
           | [(sdates, _)] => ["ERROR: Sowing date file not found: " +:+ sdates]
           | (sdates, _) :: _ => ["ERROR: Harvest date file not found: " +:+ sdates]
           end
  end.
Proof.
  intros H. unfold get_crop_date_files in H.
  cbn [mbind prog_bind bind call can_raise exec] in H.
  destruct H as (grid & tr1 & -> & H). cbn in grid.
  destruct (String.eqb grid "10x15") eqn:E1; [|destruct (String.eqb grid "1.9x2.5") eqn:E2].
  all: exec_inv H.
  all: try (split; reflexivity); reflexivity.
Qed.

Lemma missing_date_file_is_reported_witness :
  let p := get_crop_date_files (new_object 0%nat 5) in
  let tr := (run (scripted harvest_dates_missing) p ()).1.1 in
  let o := (run (scripted harvest_dates_missing) p ()).1.2 in
  let sdates := "/glade/work/samrabin/crop_dates_blessed/sdates_ggcmi_crop_calendar_phase3_v1.01_nninterp-f10_f10_mg37.2000-2000.20230330_165301.fill1.nc" in
  let hdates := "/glade/work/samrabin/crop_dates_blessed/hdates_ggcmi_crop_calendar_phase3_v1.01_nninterp-f10_f10_mg37.2000-2000.20230330_165301.fill1.nc" in
  exec p tr o
  /\ probes tr = [(sdates, true); (hdates, false)]
  /\ o = inl bare_raise
  /\ printed tr = ["ERROR: Harvest date file not found: " +:+ sdates].
Proof.
  intros p tr o sdates hdates.
  assert (H : exec p tr o) by apply run_exec.
  assert (Hp : probes tr = [(sdates, true); (hdates, false)]) by (vm_compute; reflexivity).
  assert (Ho : o = inl bare_raise) by (vm_compute; reflexivity).
  split; [exact H|]. split; [exact Hp|]. split; [exact Ho|].
  pose proof (missing_date_file_is_reported (new_object 0%nat 5) tr o H) as Hm.
  rewrite Ho, Hp in Hm. exact (proj2 Hm).
Defined.

(** ** Calls that a program never makes *)

Lemma never_bind {A B} P (p : prog A) (f : A -> prog B) :
  never P p -> (forall a, never P (f a)) -> never P (bind p f).
Proof.
  intros Hp Hf. induction p as [a|e|ev k IH]; simpl in *; auto.
  destruct Hp as [Hev Hk]. split; auto.
Qed.

Lemma never_catch {A} P (p : prog A) (h : exn -> prog A) :
  never P p -> (forall e, never P (h e)) -> never P (catch p h).
Proof.
  intros Hp Hh. induction p as [a|e|ev k IH]; simpl in *; auto.
  destruct Hp as [Hev Hk]. split; auto.
Qed.

Lemma never_call P ev : P ev = false -> never P (call ev).
Proof.
  intros H. unfold call. simpl. split; [exact H|].
  unfold answer. destruct (can_raise ev); [intros [e|x]|intros x]; exact I.
Qed.

Lemma never_lift {A} P (r : exn + A) : never P (lift r).
Proof. by destruct r. Qed.

Lemma never_for_each {A} P (l : list A) body :
  (forall a, never P (body a)) -> never P (for_each l body).
Proof.
  intros H. induction l as [|a l IH]; [exact I|].
  cbn [for_each]. apply never_bind; auto.
Qed.

(** A program that never makes a call is silent in every run. *)
Lemma never_exec {A} P (p : prog A) tr o :
  never P p -> exec p tr o -> silent P tr.
Proof.
  revert tr. induction p as [a|e|ev k IH]; intros tr Hp H; simpl in *.
  - destruct H as [-> _]. constructor.
  - destruct H as [-> _]. constructor.
  - destruct Hp as [Hev Hk]. destruct H as (r & tr' & -> & H).
    constructor; [exact Hev|]. eapply IH; eauto.
Qed.

Lemma silent_nil P : silent P [].
Proof. constructor. Qed.

Lemma silent_cons P ob tr :
  P (obs_event ob) = false -> silent P tr -> silent P (ob :: tr).
Proof. by constructor. Qed.

Lemma silent_app P tr1 tr2 : silent P tr1 -> silent P tr2 -> silent P (tr1 ++ tr2).
Proof. apply Forall_app_2. Qed.

Lemma exec_call ev tr o :
  exec (call ev) tr o -> exists r, tr = [Obs ev r].
Proof.
  unfold call. simpl. intros (r & tr' & -> & H). exists r. f_equal.
  revert r H. unfold answer. destruct (can_raise ev); intros r H.
  - destruct r; by destruct H.
  - by destruct H.
Qed.

Lemma exec_bind_never {A B} P (p : prog A) (f : A -> prog B) tr o :
  never P p -> exec (bind p f) tr o ->
  (silent P tr /\ exists e, o = inl e)
  \/ (exists a tr1 tr2,
        tr = tr1 ++ tr2 /\ silent P tr1 /\ exec p tr1 (inr a) /\ exec (f a) tr2 o).
Proof.
  intros Hp H. apply exec_bind in H.
  destruct H as [(e & H & ->)|(a & tr1 & tr2 & H1 & H2 & ->)].
  - left. split; [|eauto]. eapply never_exec; eauto.
  - right. exists a, tr1, tr2. repeat split; auto. eapply never_exec; eauto.
Qed.

(** [never P p] for a program of the test, by its structure. *)
Ltac head_of t :=
  lazymatch t with
  | ?f _ => head_of f
  | _ => t
  end.

Ltac never_solve :=
  first [reflexivity | rewrite tool_basename by reflexivity; reflexivity].

Ltac never_step :=
  cbn [never mbind prog_bind mret prog_ret bind catch call can_raise lift print for_each];
  lazymatch goal with
  | |- True => exact I
  | |- _ /\ _ => split; [never_solve|intros ?]
  | |- never _ (bind _ _) => apply never_bind; [|intros ?]
  | |- never _ (catch _ _) => apply never_catch; [|intros ?]
  | |- never _ (for_each _ _) => apply never_for_each; intros ?
  | |- never _ (lift _) => apply never_lift
  | |- never _ (if ?b then _ else _) => destruct b
  | |- never _ (match ?x with _ => _ end) => destruct x
  | |- never _ ?p => let h := head_of p in unfold h
  end.

Ltac never_auto := repeat never_step.

(** ** What the methods change in the object *)

Ltac exec_ok H :=
  let e := fresh "e" in
  let a := fresh "a" in
  let tr1 := fresh "tr" in
  let tr2 := fresh "tr" in
  let H1 := fresh "H1" in
  apply exec_bind in H;
  destruct H as [(e & _ & H)|(a & tr1 & tr2 & H1 & H & ->)]; [discriminate H|].

Lemma set_active_case_ok self case tr self' :
  exec (_set_active_case self case) tr (inr self') -> self' = set_case self case.
Proof.
  intros H. unfold _set_active_case in H. cbn in H.
  destruct H as (r & tr' & -> & H).
  destruct r as [e|[]]; cbn in H; destruct H as [_ H]; [discriminate|].
  by injection H as <-.
Qed.

Lemma get_crop_date_files_ok self tr self' :
  exec (get_crop_date_files self) tr (inr self') ->
  exists sdates hdates, self' = set_hdatefile (set_sdatefile self sdates) hdates.
Proof.
  intros H. unfold get_crop_date_files in H.
  unfold mbind, prog_bind in H. cbv zeta in H.
  exec_ok H. exec_ok H.
  assert (exists sdates hdates, a0 = set_hdatefile (set_sdatefile self sdates) hdates)
    as (sdates & hdates & ->).
  { destruct (String.eqb a "10x15"); [|destruct (String.eqb a "1.9x2.5")].
    all: cbn in H0.
    1,2: destruct H0 as [_ H0]; injection H0 as ->; eauto.
    by destruct H0 as (? & ? & ? & ? & ?). }
  repeat exec_ok H. cbn in H. destruct H as [_ H]. injection H as ->. eauto.
Qed.

Lemma setup_all_ok self tr self' :
  exec (_setup_all self) tr (inr self') ->
  exists root year sdates hdates,
    self' = set_hdatefile
              (set_sdatefile (set_run_startyear (set_ctsm_root self root) year) sdates)
              hdates.
Proof.
  intros H. unfold _setup_all in H.
  unfold mbind, prog_bind in H. cbv zeta in H.
  do 5 exec_ok H.
  apply get_crop_date_files_ok in H4 as (sdates & hdates & ->).
  repeat exec_ok H. cbn in H. destruct H as [_ H]. injection H as ->. eauto.
Qed.

(** ** The phases of the test *)

Lemma silent_removed tr : silent removes tr -> removed tr = [].
Proof.
  induction 1 as [|[ev r] tr Hev _ IH]; [reflexivity|].
  unfold removed in *. cbn [omap list_omap]. rewrite IH.
  destruct ev; try reflexivity. discriminate Hev.
Qed.

(** [run_phase] starts by reading [CASEROOT] and probing the directory of
    the clone, [<CASEROOT>.gddgen].  In every run, what it removes is
    exactly that directory when the probe found it, and nothing when it
    did not: no other tree is ever removed. *)
Theorem only_the_stale_clone_is_removed self tr o :
  exec (run_phase self) tr o ->
  exists caseroot stale rest,
    tr = Obs (LoggerInfo "SSRLOG  cloning setup") ()
         :: Obs (GetStr (_case self) "CASEROOT") caseroot
         :: Obs (PathExists (caseroot +:+ ".gddgen")) stale :: rest
    /\ removed tr = if stale then [caseroot +:+ ".gddgen"] else [].
Proof.
  intros H. unfold run_phase in H.
  cbn [mbind prog_bind bind call can_raise exec] in H.
  destruct H as ([] & tr1 & -> & H).
  destruct H as (caseroot & tr2 & -> & H). cbn in caseroot.
  destruct H as (stale & tr3 & -> & H). cbn in stale.
  exists caseroot, stale, tr3. split; [reflexivity|].
  assert (forall p : prog RXCROPMATURITY, never removes p -> exec p tr3 o -> removed tr3 = []) as Hq.
  { intros p Hp Hx. apply silent_removed. eapply never_exec; eauto. }
  destruct stale.
  - cbn [_path_gddgen set_path_gddgen bind exec] in H.
    destruct H as (r & tr4 & -> & H).
    change (removed (_ :: _ :: _ :: _ :: tr4)) with ((caseroot +:+ ".gddgen") :: removed tr4).
    f_equal. apply silent_removed. eapply never_exec; [|exact H].
    destruct r as [e|[]]; [exact I|]. never_auto.
  - change (removed (_ :: _ :: _ :: tr3)) with (removed tr3).
    apply silent_removed. eapply never_exec; [|exact H].
    never_auto.
Qed.

Lemma only_the_stale_clone_is_removed_witness :
  let p := run_phase (new_object 0%nat 5) in
  let tr := (run (scripted whole_test) p ()).1.1 in
  let o := (run (scripted whole_test) p ()).1.2 in
  exec p tr o
  /\ removed tr = ["/case.gddgen"]
  /\ exists caseroot stale rest,
      tr = Obs (LoggerInfo "SSRLOG  cloning setup") ()
           :: Obs (GetStr 0%nat "CASEROOT") caseroot
           :: Obs (PathExists (caseroot +:+ ".gddgen")) stale :: rest
      /\ removed tr = if stale then [caseroot +:+ ".gddgen"] else [].
Proof.
  intros p tr o.
  assert (H : exec p tr o) by apply run_exec.
  split; [exact H|]. split; [vm_compute; reflexivity|].
  exact (only_the_stale_clone_is_removed (new_object 0%nat 5) tr o H).
Defined.

Lemma silent_model_runs tr : silent runs_model tr -> model_runs tr = [].
Proof.
  induction 1 as [|[ev r] tr Hev _ IH]; [reflexivity|].
  unfold model_runs in *. cbn [omap list_omap]. rewrite IH.
  destruct ev; try reflexivity. discriminate Hev.
Qed.

Lemma model_runs_app tr1 tr2 :
  model_runs (tr1 ++ tr2) = model_runs tr1 ++ model_runs tr2.
Proof. apply omap_app. Qed.

Ltac quiet_run H :=
  let e := fresh "e" in
  let a := fresh "a" in
  let tr1 := fresh "tr" in
  let tr2 := fresh "tr" in
  let Hs := fresh "Hs" in
  let H1 := fresh "H1" in
  apply (exec_bind_never runs_model) in H; [|solve [never_auto]];
  destruct H as [[Hs [e ->]]|(a & tr1 & tr2 & -> & Hs & H1 & H)];
  [ rewrite (silent_model_runs _ Hs); cbn [app]; eauto
  | rewrite model_runs_app, (silent_model_runs _ Hs); cbn [app]; clear Hs H1 ].

Ltac loud_run H :=
  let e := fresh "e" in
  let a := fresh "a" in
  let r := fresh "r" in
  let tr1 := fresh "tr" in
  let tr2 := fresh "tr" in
  let H1 := fresh "H1" in
  apply exec_bind in H;
  destruct H as [(e & H & ->)|(a & tr1 & tr2 & H1 & H & ->)];
  [ apply exec_call in H; destruct H as [r ->]; cbn; eauto
  | apply exec_call in H1; destruct H1 as [r ->];
    rewrite model_runs_app;
    change (model_runs [Obs (RunIndv ?s ?b) r]) with [(s, b)]; cbn [app] ].

(** In every run of [run_phase] the model is run at most twice: first the
    GDD-generating run ([suffix=None, st_archive=True]), then the run
    with prescribed calendars ([run_indv()], all left to the defaults of
    CIME).  The second is never made before the first, and a test that
    returns has made both. *)
Theorem model_runs_in_order self tr o :
  exec (run_phase self) tr o ->
  match model_runs tr with
  | [] | [(Given None, Given true)] => exists e, o = inl e
  | [(Given None, Given true); (Default, Default)] => True
  | _ => False
  end.
Proof.
  intros H. unfold run_phase in H. unfold mbind, prog_bind in H.
  cbv zeta in H.
  repeat quiet_run H.
  loud_run H.
  repeat quiet_run H.
  loud_run H.
  repeat quiet_run H.
  cbn in H. destruct H as [-> _]. exact I.
Qed.

Lemma model_runs_in_order_witness :
  let p := run_phase (new_object 0%nat 5) in
  let tr := (run (scripted whole_test) p ()).1.1 in
  let o := (run (scripted whole_test) p ()).1.2 in
  exec p tr o
  /\ model_runs tr = [(Given None, Given true); (Default, Default)]
  /\ match model_runs tr with
     | [] | [(Given None, Given true)] => exists e, o = inl e
     | [(Given None, Given true); (Default, Default)] => True
     | _ => False
     end.
Proof.
  intros p tr o.
  assert (H : exec p tr o) by apply run_exec.
  split; [exact H|]. split; [vm_compute; reflexivity|].
  exact (model_runs_in_order (new_object 0%nat 5) tr o H).
Defined.

Lemma silent_reads tr : silent reads_or_makes_land_use tr -> silent reads tr.
Proof.
  induction 1 as [|ob tr H _ IH]; constructor; [|exact IH].
  by apply orb_false_elim in H as [? _].
Qed.

Lemma silent_makes_land_use tr :
  silent reads_or_makes_land_use tr -> silent makes_land_use tr.
Proof.
  induction 1 as [|ob tr H _ IH]; constructor; [|exact IH].
  by apply orb_false_elim in H as [_ ?].
Qed.

Lemma silent_texts_read tr : silent reads tr -> texts_read tr = [].
Proof.
  induction 1 as [|[ev r] tr Hev _ IH]; [reflexivity|].
  unfold texts_read in *. cbn [omap list_omap]. rewrite IH.
  destruct ev; try reflexivity. discriminate Hev.
Qed.

Lemma texts_read_app tr1 tr2 :
  texts_read (tr1 ++ tr2) = texts_read tr1 ++ texts_read tr2.
Proof. apply omap_app. Qed.

Ltac silent_close :=
  repeat match goal with
  | |- silent _ (_ ++ _) => apply silent_app
  | |- silent _ (_ :: _) => apply silent_cons; [reflexivity|]
  | |- silent _ [] => apply silent_nil
  | Hs : silent reads_or_makes_land_use ?t |- silent makes_land_use ?t =>
      exact (silent_makes_land_use t Hs)
  end.

Ltac in_find :=
  solve [ left; reflexivity | right; in_find | apply in_or_app; right; in_find ].

Ltac quiet_read H :=
  let e := fresh "e" in
  let a := fresh "a" in
  let tr1 := fresh "tr" in
  let tr2 := fresh "tr" in
  let Hs := fresh "Hs" in
  let H1 := fresh "H1" in
  apply (exec_bind_never reads_or_makes_land_use) in H; [|solve [never_auto]];
  destruct H as [[Hs [e ->]]|(a & tr1 & tr2 & -> & Hs & H1 & H)];
  [ rewrite (silent_texts_read _ (silent_reads _ Hs)); cbn [app]; eauto
  | rewrite texts_read_app, (silent_texts_read _ (silent_reads _ Hs)); cbn [app];
    idtac ].

(** [run_phase] reads one file, [CaseDocs/lnd_in] of the clone, and fails
    if it does not get that far or cannot read it.  When the text names no
    land use file, the test never checks the input data, never opens the
    log of [make_lu_for_gddgen.py] and never adds a [flanduse_timeseries]
    line to [user_nl_clm]; when it names one, the input data are checked. *)
Theorem land_use_is_made_only_when_named self tr o :
  exec (run_phase self) tr o ->
  match texts_read tr with
  | [] => exists e, o = inl e
  | [(path, res)] =>
      (exists caseroot,
          In (Obs (GetStr (_case self) "CASEROOT") caseroot) tr
          /\ path = OsPath.join (caseroot +:+ ".gddgen") ["CaseDocs"; "lnd_in"])
      /\ match res with
         | inl e => o = inl e
         | inr text =>
             match scan_namelist flanduse_timeseries_re (PyStr.lines text) with
             | None => silent makes_land_use tr
             | Some _ =>
                 exists case_gddgen r, In (Obs (CheckAllInputData case_gddgen) r) tr
             end
         end
  | _ => False
  end.
Proof.
  intros H. unfold run_phase in H. unfold mbind, prog_bind in H.
  cbv zeta in H.
  quiet_read H.
  apply exec_bind in H.
  destruct H as [(e & H & ->)|(caseroot & trA & trB & H2 & H & ->)].
  { cbn in H. by destruct H as (? & ? & ? & ? & ?). }
  cbn in H2. destruct H2 as (r & tr' & -> & -> & Heq). injection Heq as ->.
  cbn [app]. change (texts_read (_ :: trB)) with (texts_read trB).
  repeat quiet_read H.
  apply set_active_case_ok in H7 as ->.
  apply setup_all_ok in H8 as (root & year & sdates & hdates & ->).
  cbn [_lnd_in_path _path_gddgen _flanduse_timeseries_in set_flanduse_timeseries_in
       set_lnd_in_path set_hdatefile set_sdatefile set_run_startyear set_ctsm_root
       set_case set_path_gddgen] in H.
  apply exec_bind in H.
  destruct H as [(e & H & ->)|(text & trC & trD & HR & H & ->)].
  - cbn in H. destruct H as (res & tr' & -> & H).
    destruct res as [e'|text]; cbn in H; destruct H as [-> H]; [|discriminate].
    injection H as ->. cbn [texts_read omap list_omap text_read].
    split; [|reflexivity]. exists r. split; [in_find|reflexivity].
  - cbn in HR. destruct HR as (res & tr' & -> & HR).
    destruct res as [e'|text']; cbn in HR; destruct HR as [-> HR]; [discriminate|].
    injection HR as <-. rewrite texts_read_app.
    change (texts_read [Obs (ReadText ?p) ?res]) with [(p, res)]. cbn [app].
    destruct (scan_namelist flanduse_timeseries_re (PyStr.lines text)) as [value|] eqn:E.
    + pose proof H as Hq.
      eapply (never_exec reads) in Hq; [|solve [never_auto]].
      rewrite (silent_texts_read _ Hq).
      split; [exists r; split; [in_find|reflexivity]|].
      cbn [bind call can_raise exec] in H. destruct H as (rc & tr' & -> & _).
      exists a3, rc. in_find.
    + pose proof H as Hq.
      eapply (never_exec reads_or_makes_land_use) in Hq; [|solve [never_auto]].
      rewrite (silent_texts_read _ (silent_reads _ Hq)).
      split; [exists r; split; [in_find|reflexivity]|].
      silent_close.
Qed.

Lemma land_use_is_made_only_when_named_witness :
  let p := run_phase (new_object 0%nat 5) in
  let tr := (run (scripted whole_test) p ()).1.1 in
  let o := (run (scripted whole_test) p ()).1.2 in
  exec p tr o
  /\ texts_read tr = [("/case.gddgen/CaseDocs/lnd_in", inr lnd_in_without_land_use)]
  /\ scan_namelist flanduse_timeseries_re (PyStr.lines lnd_in_without_land_use) = None
  /\ silent makes_land_use tr.
Proof.
  intros p tr o.
  assert (H : exec p tr o) by apply run_exec.
  assert (Ht : texts_read tr
               = [("/case.gddgen/CaseDocs/lnd_in", inr lnd_in_without_land_use)])
    by (vm_compute; reflexivity).
  assert (Hs : scan_namelist flanduse_timeseries_re (PyStr.lines lnd_in_without_land_use)
               = None)
    by (vm_compute; reflexivity).
  split; [exact H|]. split; [exact Ht|]. split; [exact Hs|].
  pose proof (land_use_is_made_only_when_named (new_object 0%nat 5) tr o H) as Hl.
  rewrite Ht in Hl. destruct Hl as [_ Hl]. rewrite Hs in Hl. exact Hl.
Defined.

Lemma silent_milestones tr : silent marks tr -> milestones tr = [].
Proof.
  induction 1 as [|[ev r] tr Hev _ IH]; [reflexivity|].
  unfold milestones in *. cbn [omap list_omap]. rewrite IH.
  destruct ev; try reflexivity; try discriminate Hev.
  cbn in Hev |- *. by rewrite Hev.
Qed.

Lemma milestones_app tr1 tr2 :
  milestones (tr1 ++ tr2) = milestones tr1 ++ milestones tr2.
Proof. apply omap_app. Qed.

Ltac quiet_ok H :=
  let e := fresh "e" in
  let a := fresh "a" in
  let tr1 := fresh "tr" in
  let tr2 := fresh "tr" in
  let Hs := fresh "Hs" in
  let H1 := fresh "H1" in
  apply (exec_bind_never marks) in H; [|solve [never_auto]];
  destruct H as [[_ [e H]]|(a & tr1 & tr2 & -> & Hs & H1 & H)]; [discriminate H|];
  rewrite milestones_app, (silent_milestones _ Hs); cbn [app]; clear Hs.

Ltac forget_execs H :=
  repeat match goal with
  | Hx : exec _ _ (inr _) |- _ =>
      lazymatch Hx with
      | H => fail
      | _ => clear Hx
      end
  end.

Ltac loud_ok H H1 :=
  let e := fresh "e" in
  let a := fresh "a" in
  let tr1 := fresh "tr" in
  let tr2 := fresh "tr" in
  apply exec_bind in H;
  destruct H as [(e & _ & H)|(a & tr1 & tr2 & H1 & H & ->)]; [discriminate H|];
  rewrite milestones_app.

(** A run of [_run_generate_gdds] that returns has made one glob and
    recorded the one path without [fill0]. *)
Lemma run_generate_gdds_ok self case_gddgen tr self' :
  exec (_run_generate_gdds self case_gddgen) tr (inr self') ->
  exists pattern found,
    milestones tr = [Discovery pattern found]
    /\ filter (fun x => negb (PyStr.contains "fill0" x)) found = [_gdds_file self']
    /\ self' = set_gdds_file
                 (set_generate_gdds_dir self
                    (OsPath.join (_path_gddgen self) ["generate_gdds_out"]))
                 (_gdds_file self').
Proof.
  intros H. unfold _run_generate_gdds in H. unfold mbind, prog_bind in H.
  cbv zeta in H.
  repeat quiet_ok H.
  loud_ok H H3.
  cbn in H3. destruct H3 as (found & tr' & -> & -> & Hf). injection Hf as ->.
  destruct (filter (fun x => negb (PyStr.contains "fill0" x)) found)
    as [|only [|another more]] eqn:E;
    cbn [bind print call can_raise exec mret prog_ret] in H.
  1,3: by destruct H as (? & ? & ? & ? & ?).
  destruct H as [-> H]. injection H as ->.
  eexists _, found. split; [reflexivity|]. split; [exact E|reflexivity].
Qed.

Lemma append_two_ok a b tr :
  exec (_append_to_user_nl_clm [a; b]) tr (inr ()) ->
  exists caseroot,
    tr = [Obs GetCaseroot caseroot;
          Obs (AppendToUserNlFiles caseroot "clm" a) (inr ());
          Obs (AppendToUserNlFiles caseroot "clm" b) (inr ())].
Proof.
  intros H. unfold _append_to_user_nl_clm, _get_caseroot in H.
  cbn [mbind prog_bind bind call can_raise exec for_each mret prog_ret] in H.
  destruct H as (caseroot & tr1 & -> & H). exists caseroot.
  cbn [bind exec] in H. destruct H as (r1 & tr2 & -> & H).
  destruct r1 as [e|[]]; cbn [bind exec] in H; [by destruct H|].
  destruct H as (r2 & tr3 & -> & H).
  destruct r2 as [e|[]]; cbn [bind exec] in H; [by destruct H|].
  by destruct H as [-> _].
Qed.

(** A test that returns has gone through these milestones, in this order:
    the GDD-generating run, the discovery of the maturity requirements,
    the line of [user_nl_clm] that prescribes them, the run with
    prescribed calendars.  The file that the line prescribes is the one
    path without [fill0] that the discovery found, and it is the
    [_gdds_file] of the object at the end. *)
Theorem prescribed_run_uses_the_discovered_file self tr self' :
  exec (run_phase self) tr (inr self') ->
  exists pattern found,
    milestones tr
    = [ModelRun (Given None) (Given true);
       Discovery pattern found;
       Prescribes ("stream_fldFileName_cultivar_gdds = '" +:+ _gdds_file self' +:+ "'");
       ModelRun Default Default]
    /\ filter (fun x => negb (PyStr.contains "fill0" x)) found = [_gdds_file self'].
Proof.
  intros H. unfold run_phase in H. unfold mbind, prog_bind in H.
  cbv zeta in H.
  repeat quiet_ok H. forget_execs H.
  loud_ok H Hrun. apply exec_call in Hrun as [r ->].
  change (milestones [Obs (RunIndv ?s ?b) r]) with [ModelRun s b]. cbn [app].
  loud_ok H Hgdds. apply run_generate_gdds_ok in Hgdds as (pattern & found & -> & Hf & _).
  cbn [app].
  repeat quiet_ok H.
  loud_ok H Happ.
  match type of Happ with exec _ _ (inr ?u) => destruct u end.
  apply append_two_ok in Happ as [caseroot ->].
  change (milestones [Obs GetCaseroot caseroot;
                      Obs (AppendToUserNlFiles caseroot "clm" ?a) (inr ());
                      Obs (AppendToUserNlFiles caseroot "clm" ?b) (inr ())])
    with [Prescribes b].
  cbn [app].
  loud_ok H Hrun. apply exec_call in Hrun as [r' ->].
  change (milestones [Obs (RunIndv ?s ?b) r']) with [ModelRun s b]. cbn [app].
  repeat quiet_ok H.
  cbn in H. destruct H as [-> H]. injection H as ->.
  repeat match goal with
         | Hx : exec (_set_active_case _ _) _ (inr _) |- _ =>
             apply set_active_case_ok in Hx as ->
         | Hx : exec (_setup_all _) _ (inr _) |- _ =>
             apply setup_all_ok in Hx as (root & year & sdates & hdates & ->)
         end.
  exists pattern, found. split; [reflexivity|exact Hf].
Qed.

Lemma prescribed_run_uses_the_discovered_file_witness :
  let p := run_phase (new_object 0%nat 5) in
  let tr := (run (scripted whole_test) p ()).1.1 in
  let self' := object_after_whole_test in
  exec p tr (inr self')
  /\ exists pattern found,
      milestones tr
      = [ModelRun (Given None) (Given true);
         Discovery pattern found;
         Prescribes "stream_fldFileName_cultivar_gdds = '/case.gddgen/generate_gdds_out/gdds_20230405_101112.nc'";
         ModelRun Default Default]
      /\ filter (fun x => negb (PyStr.contains "fill0" x)) found
         = ["/case.gddgen/generate_gdds_out/gdds_20230405_101112.nc"].
Proof.
  intros p tr self'.
  assert (H : exec p tr (inr self')).
  { pose proof (run_exec (scripted whole_test) p ()) as H.
    assert (E : (run (scripted whole_test) p ()).1.2 = inr self')
      by (vm_compute; reflexivity).
    rewrite E in H. exact H. }
  split; [exact H|].
  exact (prescribed_run_uses_the_discovered_file (new_object 0%nat 5) tr self' H).
Defined.
